(** * xcresulttool_openapi_generator: the schema transformation, embedded

    A shallow embedding of [xcresulttool_openapi_generator.py] and the
    properties of its transformation from a type-description document
    to an OpenAPI document.

    Input domain.  The script reads an arbitrary JSON tree.  The
    embedding covers the documents that have the shape the script
    subscripts: every key read with [d['k']] is present with a value of
    the expected type (a string, an integer, a boolean, a list of
    descriptors), except [properties], which the script reads only for
    object-kind types and which may therefore be absent; the keys read
    with [.get] ([supertype], [wrappedType]) are optional.

    Values built by the script are Python dicts, lists, strings and
    [False]; they are kept as such, a dict being an association list in
    insertion order. *)

From Stdlib Require Import String Ascii List ZArith Bool Lia.
From Stdlib Require Import DecimalString DecimalZ.
Import ListNotations.
Open Scope string_scope.
Open Scope list_scope.

#[local] Set Warnings "-register-all".

(** ** Exceptions and the error monad *)

Inductive exn : Type :=
| AssertionError
| KeyError (key : string).

Inductive result (A : Type) : Type :=
| OK (a : A)
| Raise (e : exn).
Arguments OK {A} a.
Arguments Raise {A} e.

Definition bind {A B : Type} (m : result A) (k : A -> result B) : result B :=
  match m with
  | OK a => k a
  | Raise e => Raise e
  end.

Notation "x <- m ;; k" := (bind m (fun x => k))
  (at level 61, m at next level, right associativity).
Notation "' p <- m ;; k" := (bind m (fun x => let p := x in k))
  (at level 61, p pattern, m at next level, right associativity).

(** [assert c]: raises [AssertionError] when [c] is falsy. *)
Definition assert (c : bool) : result unit :=
  if c then OK tt else Raise AssertionError.

(** ** Python values and insertion-ordered dicts *)

Inductive pyval : Type :=
| PyStr (s : string)
| PyBool (b : bool)
| PyList (l : list pyval)
| PyDict (d : list (string * pyval)).

Definition dict (V : Type) : Type := list (string * V).

(** [d[k] = v]: an existing key keeps its position and takes the new
    value, a new key goes to the end. *)
Fixpoint dict_set {V : Type} (k : string) (v : V) (d : dict V) : dict V :=
  match d with
  | [] => [(k, v)]
  | (k', v') :: r =>
      if String.eqb k k' then (k', v) :: r else (k', v') :: dict_set k v r
  end.

Fixpoint dict_get {V : Type} (k : string) (d : dict V) : option V :=
  match d with
  | [] => None
  | (k', v') :: r => if String.eqb k k' then Some v' else dict_get k r
  end.

Definition keys {V : Type} (d : dict V) : list string := map fst d.

(** [v[k]] on a value, [None] when [v] is no dict or has no key [k]. *)
Definition py_get (k : string) (v : pyval) : option pyval :=
  match v with
  | PyDict d => dict_get k d
  | _ => None
  end.

Fixpoint py_path (ks : list string) (v : pyval) : option pyval :=
  match ks with
  | [] => Some v
  | k :: r => match py_get k v with
              | Some v' => py_path r v'
              | None => None
              end
  end.

(** Truthiness of a string and of the result of [.get]. *)
Definition truthy_str (s : string) : bool :=
  match s with
  | EmptyString => false
  | String _ _ => true
  end.

Definition truthy (o : option string) : bool :=
  match o with
  | None => false
  | Some s => truthy_str s
  end.

(** [str(n)] for an integer, as an f-string field renders it. *)
Definition str_int (n : Z) : string := NilZero.string_of_int (Z.to_int n).

(** ** The input document *)

Record PropertyDescriptor : Type := mkProp {
  prop_name : string;
  prop_type : string;
  prop_wrappedType : option string;
  prop_isOptional : bool
}.

Record TypeInfo : Type := mkTypeInfo {
  ti_name : string;
  ti_supertype : option string
}.

Record TypeDescriptor : Type := mkType {
  td_kind : string;
  td_type : TypeInfo;
  td_properties : option (list PropertyDescriptor)
}.

Record Version : Type := mkVersion {
  major : Z;
  minor : Z
}.

Record Document : Type := mkDocument {
  doc_name : string;
  doc_version : Version;
  doc_signature : string;
  doc_types : list TypeDescriptor
}.

(** ** The transformation *)

Definition openAPISpec (openapi_version title : string) (version : Z * Z)
    (signature : string) (schemas : dict pyval) : pyval :=
  PyDict [
    ("openapi", PyStr openapi_version);
    ("info", PyDict [
       ("title", PyStr title);
       ("version", PyStr (str_int (fst version) ++ "." ++ str_int (snd version)));
       ("x-signature", PyStr signature)
     ]);
    ("components", PyDict [
       ("schemas", PyDict schemas)
     ])
  ].

Definition dataType (t : string) : pyval :=
  if String.eqb t "Bool" then PyDict [("type", PyStr "boolean")]
  else if String.eqb t "Int" then PyDict [("type", PyStr "integer")]
  else if String.eqb t "Double" then
    PyDict [("type", PyStr "number"); ("format", PyStr "double")]
  else if String.eqb t "String" then PyDict [("type", PyStr "string")]
  else if String.eqb t "Date" then
    PyDict [("type", PyStr "string"); ("format", PyStr "date-time")]
  else if String.eqb t "SchemaSerializable" then PyDict []
  else PyDict [("$ref", PyStr ("#/components/schemas/" ++ t))].

(** [dataType] applied to the result of [.get('wrappedType')] once the
    assertion on it has passed; the [None] branch is the value Python
    computes for [dataType(None)] and is never reached through
    [schemaType]. *)
Definition dataType_wrapped (w : option string) : pyval :=
  match w with
  | Some t => dataType t
  | None => PyDict [("$ref", PyStr "#/components/schemas/None")]
  end.

(** The state of the loop over [t['properties']]: [properties] and
    [required_properties]. *)
Definition props_state : Type := (dict pyval * list string)%type.

(** One iteration of the loop over the properties. *)
Definition prop_step (st : props_state) (prop : PropertyDescriptor)
    : result props_state :=
  let '(properties, required_properties) := st in
  let prop_name := prop.(prop_name) in
  let prop_type := prop.(prop_type) in
  let prop_wrapped_type := prop.(prop_wrappedType) in
  let prop_is_optional := prop.(prop_isOptional) in
  if String.eqb prop_type "Array" then
    _ <- assert (truthy prop_wrapped_type) ;;
    OK (dict_set prop_name
          (PyDict [("type", PyStr "array");
                   ("items", dataType_wrapped prop_wrapped_type)])
          properties,
        required_properties)
  else if String.eqb prop_type "Optional" then
    _ <- assert (prop_is_optional && truthy prop_wrapped_type) ;;
    OK (dict_set prop_name (dataType_wrapped prop_wrapped_type) properties,
        required_properties ++ [prop_name])
  else
    OK (dict_set prop_name (dataType prop_type) properties,
        required_properties).

Fixpoint for_props (props : list PropertyDescriptor) (st : props_state)
    : result props_state :=
  match props with
  | [] => OK st
  | prop :: rest => st' <- prop_step st prop ;; for_props rest st'
  end.

(** The object schema appended last by [schemaType]. *)
Definition object_schema (kind : string) (properties : dict pyval)
    (required_properties : list string) : pyval :=
  PyDict [
    ("type", PyStr kind);
    ("properties", PyDict properties);
    ("additionalProperties", PyBool false);
    ("required", PyList (map PyStr required_properties))
  ].

Definition reference (name : string) : pyval :=
  PyDict [("$ref", PyStr ("#/components/schemas/" ++ name))].

Definition schemaType (t : TypeDescriptor) : result (string * list pyval) :=
  let title := t.(td_type).(ti_name) in
  let kind := t.(td_kind) in
  if String.eqb kind "value" || String.eqb kind "array" then OK (title, [])
  else
    _ <- assert (String.eqb kind "object") ;;
    let schemas : list pyval := [] in
    let supertype := t.(td_type).(ti_supertype) in
    let schemas :=
      match supertype with
      | Some s => if truthy_str s then schemas ++ [reference s] else schemas
      | None => schemas
      end in
    props <- match t.(td_properties) with
             | Some props => OK props
             | None => Raise (KeyError "properties")
             end ;;
    '(properties, required_properties) <- for_props props ([], []) ;;
    OK (title, schemas ++ [object_schema kind properties required_properties]).

(** One iteration of the loop of [gen_openapi] over [xcrt_desc['types']]. *)
Definition type_step (all_schemas : dict pyval) (xcrt_type : TypeDescriptor)
    : result (dict pyval) :=
  '(title, schemas) <- schemaType xcrt_type ;;
  match schemas with
  | [] => OK all_schemas
  | [s] => OK (dict_set title s all_schemas)
  | _ => OK (dict_set title (PyDict [("allOf", PyList schemas)]) all_schemas)
  end.

Fixpoint for_types (types : list TypeDescriptor) (all_schemas : dict pyval)
    : result (dict pyval) :=
  match types with
  | [] => OK all_schemas
  | t :: rest => s' <- type_step all_schemas t ;; for_types rest s'
  end.

(** [gen_openapi] on the document [json.load] returned. *)
Definition gen_openapi (xcrt_desc : Document) (openapi_version : string)
    : result pyval :=
  all_schemas <- for_types xcrt_desc.(doc_types) [] ;;
  OK (openAPISpec openapi_version
        xcrt_desc.(doc_name)
        (xcrt_desc.(doc_version).(major), xcrt_desc.(doc_version).(minor))
        xcrt_desc.(doc_signature)
        all_schemas).

(** What a run of [main] leaves behind: the value handed to [json.dump]
    (nothing when [gen_openapi] raised, since the argument is evaluated
    before [json.dump] is entered) and the exit status. *)
Record outcome : Type := mkOutcome {
  dumped : option pyval;
  exit_status : Z
}.

Definition main (infile : Document) : outcome :=
  match gen_openapi infile "3.1.0" with
  | OK spec => mkOutcome (Some spec) 0
  | Raise _ => mkOutcome None 1
  end.

(** ** Notions used to state the properties *)

(** A computation that did not return raised. *)
Definition raises {A : Type} (m : result A) : Prop := exists e, m = Raise e.

(** The keys of a dict after one more assignment to key [k]. *)
Fixpoint add_key (k : string) (ks : list string) : list string :=
  match ks with
  | [] => [k]
  | k' :: r => if String.eqb k k' then k' :: r else k' :: add_key k r
  end.

(** The keys of a dict filled, from keys [init], by assignments to
    [names] in turn: each name at the place of its first assignment. *)
Definition insertion_order (names init : list string) : list string :=
  fold_left (fun ks k => add_key k ks) names init.

(** Whether the assertion of the loop body, if any, passes on [p]. *)
Definition prop_ok (p : PropertyDescriptor) : bool :=
  if String.eqb p.(prop_type) "Array" then truthy p.(prop_wrappedType)
  else if String.eqb p.(prop_type) "Optional" then
    p.(prop_isOptional) && truthy p.(prop_wrappedType)
  else true.

(** The schema the loop body assigns under the name of [p]. *)
Definition prop_schema (p : PropertyDescriptor) : pyval :=
  if String.eqb p.(prop_type) "Array" then
    PyDict [("type", PyStr "array");
            ("items", dataType_wrapped p.(prop_wrappedType))]
  else if String.eqb p.(prop_type) "Optional" then
    dataType_wrapped p.(prop_wrappedType)
  else dataType p.(prop_type).

(** The test [prop_type == 'Optional']. *)
Definition is_Optional (p : PropertyDescriptor) : bool :=
  String.eqb p.(prop_type) "Optional".

(** [properties] after the assignments of the loop, one per property. *)
Definition assign_props (props : list PropertyDescriptor) (d : dict pyval)
    : dict pyval :=
  fold_left (fun d p => dict_set p.(prop_name) (prop_schema p) d) props d.

(** [required_properties] after the loop. *)
Definition Optional_names (props : list PropertyDescriptor) : list string :=
  map prop_name (filter is_Optional props).

(** The test [kind == 'value' or kind == 'array']. *)
Definition skipped (t : TypeDescriptor) : bool :=
  String.eqb t.(td_kind) "value" || String.eqb t.(td_kind) "array".

(** [t['type']['name']]. *)
Definition type_name (t : TypeDescriptor) : string := t.(td_type).(ti_name).

(** The schemas in the list before the object schema is appended. *)
Definition supertype_schemas (t : TypeDescriptor) : list pyval :=
  match t.(td_type).(ti_supertype) with
  | Some s => if truthy_str s then [reference s] else []
  | None => []
  end.

(** The object schema of a type with the given properties. *)
Definition object_of (props : list PropertyDescriptor) : pyval :=
  object_schema "object" (assign_props props []) (Optional_names props).

(** The value assigned to [all_schemas[title]] for an object-kind type
    with the given properties. *)
Definition definition_of (t : TypeDescriptor)
    (props : list PropertyDescriptor) : pyval :=
  match supertype_schemas t with
  | [] => object_of props
  | refs => PyDict [("allOf", PyList (refs ++ [object_of props]))]
  end.

(** The names under which the loop assigns: those of the types that
    are not skipped, in the order of the input. *)
Definition defined_names (types : list TypeDescriptor) : list string :=
  map type_name (filter (fun t => negb (skipped t)) types).

(** Reading a decimal numeral back. *)
Definition parse_int (s : string) : option Z :=
  option_map Z.of_int (NilZero.int_of_string s).


(** The malformations the assertions of [schemaType] reject: an
    ["Array"] property without [wrappedType], an ["Optional"] property
    without [wrappedType] or with [isOptional] false. *)
Definition bad_property (p : PropertyDescriptor) : Prop :=
  (p.(prop_type) = "Array" /\ p.(prop_wrappedType) = None) \/
  (p.(prop_type) = "Optional" /\
   (p.(prop_wrappedType) = None \/ p.(prop_isOptional) = false)).

(** A type of unknown kind, or an object type with a bad property. *)
Definition bad_type (t : TypeDescriptor) : Prop :=
  (t.(td_kind) <> "value" /\ t.(td_kind) <> "array" /\
   t.(td_kind) <> "object") \/
  (t.(td_kind) = "object" /\
   exists props p, t.(td_properties) = Some props /\ In p props /\
                   bad_property p).

(** ** Sample inputs *)

Definition Foo : TypeDescriptor :=
  mkType "object" (mkTypeInfo "Foo" None)
    (Some [mkProp "id" "String" None false;
           mkProp "tag" "Optional" (Some "String") true]).

Definition Bar : TypeDescriptor :=
  mkType "object" (mkTypeInfo "Bar" (Some "Foo")) (Some []).

Definition Baz : TypeDescriptor :=
  mkType "value" (mkTypeInfo "Baz" None) None.

Definition X (types : list TypeDescriptor) : Document :=
  mkDocument "X" (mkVersion 1 0) "abc" types.


(** An object type with an ["Array"] property that has no
    [wrappedType]. *)
Definition Quux : TypeDescriptor :=
  mkType "object" (mkTypeInfo "Quux" None)
    (Some [mkProp "items" "Array" None false]).

(** An object type that names one property twice: the second
    assignment replaces the schema of the first. *)
Definition Twice : TypeDescriptor :=
  mkType "object" (mkTypeInfo "Twice" None)
    (Some [mkProp "a" "Optional" (Some "String") true;
           mkProp "a" "Int" None false]).

(** An object type whose ["Array"] property shares its name with a
    later ["Optional"] property. *)
Definition Shadowed : TypeDescriptor :=
  mkType "object" (mkTypeInfo "Shadowed" None)
    (Some [mkProp "a" "Array" (Some "Int") false;
           mkProp "a" "Optional" (Some "Int") true]).

(** An object type with one ["Array"] property. *)
Definition Plain : TypeDescriptor :=
  mkType "object" (mkTypeInfo "Plain" None)
    (Some [mkProp "xs" "Array" (Some "Double") false]).

(** An object type whose [supertype] key is present and empty. *)
Definition Orphan : TypeDescriptor :=
  mkType "object" (mkTypeInfo "Orphan" (Some "")) (Some []).

(** ** Well-formed input *)

(** What the assertions of the loop body ask of a property: an
    ["Array"] property has a non-empty [wrappedType]; an ["Optional"]
    property has [isOptional] true and a non-empty [wrappedType]. *)
Definition well_formed_property (p : PropertyDescriptor) : Prop :=
  (p.(prop_type) = "Array" ->
   exists w, p.(prop_wrappedType) = Some w /\ w <> "") /\
  (p.(prop_type) = "Optional" ->
   p.(prop_isOptional) = true /\
   exists w, p.(prop_wrappedType) = Some w /\ w <> "").

(** A type [schemaType] accepts: of kind ["value"] or ["array"], or of
    kind ["object"] with its [properties] present and well formed. *)
Definition well_formed_type (t : TypeDescriptor) : Prop :=
  t.(td_kind) = "value" \/ t.(td_kind) = "array" \/
  (t.(td_kind) = "object" /\
   exists props, t.(td_properties) = Some props /\
                 forall p, In p props -> well_formed_property p).

(** The same, as a test. *)
Definition type_ok (t : TypeDescriptor) : bool :=
  skipped t ||
  (String.eqb t.(td_kind) "object" &&
   match t.(td_properties) with
   | Some props => forallb prop_ok props
   | None => false
   end).

(** A document with the value- and array-kind types taken out. *)
Definition without_skipped (d : Document) : Document :=
  mkDocument d.(doc_name) d.(doc_version) d.(doc_signature)
    (filter (fun t => negb (skipped t)) d.(doc_types)).

(** An array schema with the given items. *)
Definition array_of (items : pyval) : pyval :=
  PyDict [("type", PyStr "array"); ("items", items)].

(** An object type without the [properties] key. *)
Definition Bare : TypeDescriptor :=
  mkType "object" (mkTypeInfo "Bare" (Some "Foo")) None.

(** An object type with an ["Optional"] property whose [wrappedType]
    is the empty string. *)
Definition Hollow : TypeDescriptor :=
  mkType "object" (mkTypeInfo "Hollow" None)
    (Some [mkProp "x" "Optional" (Some "") true]).

(** A value type that carries properties no object type could. *)
Definition Odd : TypeDescriptor :=
  mkType "value" (mkTypeInfo "Odd" (Some "Foo"))
    (Some [mkProp "items" "Array" None false]).

(** Whether a string contains a dot. *)
Fixpoint has_dot (s : string) : bool :=
  match s with
  | EmptyString => false
  | String c r => Ascii.eqb c "." || has_dot r
  end.

(** [obj] is a dict with the four keys of an object schema, in the
    order of the literal, holding ["object"], the given [properties],
    [False] and the given [required] names. *)
Definition has_object_fields (obj : pyval) (properties : dict pyval)
    (required : list string) : Prop :=
  (exists fields,
      obj = PyDict fields /\
      keys fields = ["type"; "properties"; "additionalProperties"; "required"]) /\
  py_get "type" obj = Some (PyStr "object") /\
  py_get "properties" obj = Some (PyDict properties) /\
  py_get "additionalProperties" obj = Some (PyBool false) /\
  py_get "required" obj = Some (PyList (map PyStr required)).

(** ** The error monad: inversion *)

Lemma bind_OK {A B : Type} (m : result A) (k : A -> result B) (b : B) :
  bind m k = OK b -> exists a, m = OK a /\ k a = OK b.
Proof.
  destruct m as [a | e]; simpl; intros H.
  - exists a; split; [reflexivity | exact H].
  - discriminate H.
Qed.

Ltac inv_bind H :=
  let a := fresh "a" in
  let Ha := fresh "Ha" in
  apply bind_OK in H; destruct H as (a & Ha & H).

Lemma raises_bind_l {A B : Type} (m : result A) (k : A -> result B) :
  raises m -> raises (bind m k).
Proof. intros [e ->]; exists e; reflexivity. Qed.

Lemma raises_bind_r {A B : Type} (m : result A) (k : A -> result B) :
  (forall a, m = OK a -> raises (k a)) -> raises (bind m k).
Proof.
  destruct m as [a | e]; simpl; intros H.
  - apply H; reflexivity.
  - exists e; reflexivity.
Qed.

Lemma raises_not_OK {A : Type} (m : result A) (a : A) :
  raises m -> m <> OK a.
Proof. intros [e ->]; discriminate. Qed.

(** ** Insertion-ordered dicts *)

Section Dicts.
Context {V : Type}.
Implicit Types (d : dict V) (k : string) (v : V).

Lemma dict_get_set_eq k v d : dict_get k (dict_set k v d) = Some v.
Proof.
  induction d as [| [k' v'] r IH]; simpl.
  - rewrite String.eqb_refl; reflexivity.
  - destruct (String.eqb k k') eqn:E; simpl; rewrite E; auto.
Qed.

Lemma dict_get_set_neq k k' v d :
  k <> k' -> dict_get k' (dict_set k v d) = dict_get k' d.
Proof.
  intros Hne; induction d as [| [k0 v0] r IH]; simpl.
  - apply String.eqb_neq in Hne. rewrite String.eqb_sym, Hne; reflexivity.
  - destruct (String.eqb k k0) eqn:E; simpl.
    + apply String.eqb_eq in E; subst k0.
      assert (String.eqb k' k = false) as ->
        by (apply String.eqb_neq; congruence).
      reflexivity.
    + rewrite IH; reflexivity.
Qed.

Lemma keys_dict_set k v d : keys (dict_set k v d) = add_key k (keys d).
Proof.
  unfold keys; induction d as [| [k' v'] r IH]; simpl; [reflexivity |].
  destruct (String.eqb k k'); simpl; [reflexivity |].
  rewrite IH; reflexivity.
Qed.

Lemma dict_get_None_keys k d : dict_get k d = None <-> ~ In k (keys d).
Proof.
  induction d as [| [k' v'] r IH]; simpl.
  - tauto.
  - destruct (String.eqb k k') eqn:E.
    + apply String.eqb_eq in E; subst; split; [discriminate | tauto].
    + apply String.eqb_neq in E. rewrite IH. unfold keys.
      split; [intros H [H1 | H1]; [congruence | tauto] | tauto].
Qed.
End Dicts.

Lemma add_key_In (k : string) (ks : list string) :
  In k ks -> add_key k ks = ks.
Proof.
  induction ks as [| k' r IH]; simpl; [tauto |].
  destruct (String.eqb k k') eqn:E; [reflexivity |].
  apply String.eqb_neq in E.
  intros [H | H]; [congruence | rewrite IH by assumption; reflexivity].
Qed.

Lemma add_key_not_In (k : string) (ks : list string) :
  ~ In k ks -> add_key k ks = ks ++ [k].
Proof.
  induction ks as [| k' r IH]; simpl; [reflexivity |].
  intros H. destruct (String.eqb k k') eqn:E.
  - apply String.eqb_eq in E; subst; tauto.
  - rewrite IH by tauto; reflexivity.
Qed.

Lemma In_add_key (k x : string) (ks : list string) :
  In x (add_key k ks) <-> x = k \/ In x ks.
Proof.
  induction ks as [| k' r IH]; simpl.
  - split; [intros [H | []]; auto | intros [H | []]; auto].
  - destruct (String.eqb k k') eqn:E; simpl.
    + apply String.eqb_eq in E; subst. intuition congruence.
    + rewrite IH. tauto.
Qed.

Lemma NoDup_add_key (k : string) (ks : list string) :
  NoDup ks -> NoDup (add_key k ks).
Proof.
  intros H. destruct (in_dec string_dec k ks) as [Hin | Hnin].
  - rewrite add_key_In; assumption.
  - rewrite add_key_not_In by assumption.
    apply NoDup_app; [assumption | repeat constructor; simpl; tauto |].
    intros x Hx [<- | []]; tauto.
Qed.

Lemma insertion_order_app (l1 l2 init : list string) :
  insertion_order (l1 ++ l2) init = insertion_order l2 (insertion_order l1 init).
Proof. unfold insertion_order; apply fold_left_app. Qed.

(** Distinct names, none of them bound yet, are appended in order. *)
Lemma insertion_order_NoDup (names init : list string) :
  NoDup (init ++ names) -> insertion_order names init = init ++ names.
Proof.
  revert init; induction names as [| k r IH]; intros init H; simpl.
  - rewrite app_nil_r; reflexivity.
  - assert (Hk : ~ In k init).
    { apply NoDup_remove_2 in H. rewrite in_app_iff in H. tauto. }
    unfold insertion_order in *. simpl.
    rewrite add_key_not_In by assumption.
    rewrite IH; rewrite <- app_assoc; simpl; [reflexivity | assumption].
Qed.

(** In general the keys are duplicate-free, and they are exactly the
    names assigned. *)
Lemma insertion_order_spec (names init : list string) :
  NoDup init ->
  NoDup (insertion_order names init) /\
  (forall x, In x (insertion_order names init) <-> In x init \/ In x names).
Proof.
  revert init; induction names as [| k r IH]; intros init H.
  - simpl; split; [assumption | intros x; simpl; tauto].
  - specialize (IH (add_key k init) (NoDup_add_key k init H)).
    destruct IH as [IH1 IH2]. unfold insertion_order in *; simpl.
    split; [exact IH1 |].
    intros x. rewrite IH2, In_add_key. simpl. intuition congruence.
Qed.

(** ** The loop over the properties, in closed form *)

Lemma prop_step_eq (ps : dict pyval) (req : list string)
    (p : PropertyDescriptor) :
  prop_step (ps, req) p =
  if prop_ok p then
    OK (dict_set p.(prop_name) (prop_schema p) ps,
        req ++ Optional_names [p])
  else Raise AssertionError.
Proof.
  unfold prop_step, prop_ok, prop_schema, Optional_names, is_Optional; simpl.
  destruct (String.eqb (prop_type p) "Array") eqn:EA.
  - apply String.eqb_eq in EA; rewrite EA; simpl.
    destruct (truthy (prop_wrappedType p)); simpl;
      [rewrite app_nil_r |]; reflexivity.
  - destruct (String.eqb (prop_type p) "Optional") eqn:EO; simpl.
    + destruct (prop_isOptional p && truthy (prop_wrappedType p));
        reflexivity.
    + rewrite app_nil_r; reflexivity.
Qed.

Lemma Optional_names_cons (p : PropertyDescriptor)
    (props : list PropertyDescriptor) :
  Optional_names (p :: props) = Optional_names [p] ++ Optional_names props.
Proof.
  unfold Optional_names; simpl. destruct (is_Optional p); reflexivity.
Qed.

Lemma Optional_names_app (l1 l2 : list PropertyDescriptor) :
  Optional_names (l1 ++ l2) = Optional_names l1 ++ Optional_names l2.
Proof. unfold Optional_names. rewrite filter_app, map_app. reflexivity. Qed.

Lemma for_props_eq (props : list PropertyDescriptor) (ps : dict pyval)
    (req : list string) :
  for_props props (ps, req) =
  if forallb prop_ok props then
    OK (assign_props props ps, req ++ Optional_names props)
  else Raise AssertionError.
Proof.
  revert ps req; induction props as [| p r IH]; intros ps req.
  - simpl. rewrite app_nil_r. reflexivity.
  - cbn [for_props forallb]. rewrite prop_step_eq.
    destruct (prop_ok p); simpl; [| reflexivity].
    rewrite IH. destruct (forallb prop_ok r); [| reflexivity].
    rewrite (Optional_names_cons p r), app_assoc. reflexivity.
Qed.

Lemma assign_props_app (l1 l2 : list PropertyDescriptor) (d : dict pyval) :
  assign_props (l1 ++ l2) d = assign_props l2 (assign_props l1 d).
Proof. unfold assign_props; apply fold_left_app. Qed.

Lemma keys_assign_props (props : list PropertyDescriptor) (d : dict pyval) :
  keys (assign_props props d) = insertion_order (map prop_name props) (keys d).
Proof.
  revert d; induction props as [| p r IH]; intros d; [reflexivity |].
  unfold assign_props, insertion_order in *; simpl.
  rewrite IH, keys_dict_set. reflexivity.
Qed.

(** Assignments to other names leave the entry of a name alone. *)
Lemma assign_props_get_other (props : list PropertyDescriptor)
    (d : dict pyval) (k : string) :
  ~ In k (map prop_name props) ->
  dict_get k (assign_props props d) = dict_get k d.
Proof.
  revert d; induction props as [| p r IH]; intros d H; [reflexivity |].
  unfold assign_props in *; simpl in *.
  rewrite IH by tauto.
  apply dict_get_set_neq. intros E; apply H; left; exact E.
Qed.

(** The last assignment to a name is the one that stays. *)
Lemma assign_props_get_last (l1 l2 : list PropertyDescriptor)
    (p : PropertyDescriptor) (d : dict pyval) :
  ~ In p.(prop_name) (map prop_name l2) ->
  dict_get p.(prop_name) (assign_props (l1 ++ p :: l2) d) =
  Some (prop_schema p).
Proof.
  intros H. rewrite assign_props_app.
  change (assign_props (p :: l2) ?d0)
    with (assign_props l2 (dict_set (prop_name p) (prop_schema p) d0)).
  rewrite assign_props_get_other by assumption.
  apply dict_get_set_eq.
Qed.

Lemma In_Optional_names (props : list PropertyDescriptor) (k : string) :
  In k (Optional_names props) <->
  exists p, In p props /\ p.(prop_type) = "Optional" /\ p.(prop_name) = k.
Proof.
  unfold Optional_names, is_Optional. rewrite in_map_iff. split.
  - intros (p & Hn & Hp). apply filter_In in Hp. destruct Hp as [Hp Ht].
    apply String.eqb_eq in Ht. exists p; auto.
  - intros (p & Hp & Ht & Hn). exists p. split; [assumption |].
    apply filter_In. split; [assumption |]. apply String.eqb_eq; assumption.
Qed.

Lemma forallb_prop_ok_In (props : list PropertyDescriptor)
    (p : PropertyDescriptor) :
  forallb prop_ok props = true -> In p props -> prop_ok p = true.
Proof. intros H Hp. rewrite forallb_forall in H. apply H; assumption. Qed.

(** ** [schemaType] and the loop over the types, in closed form *)

Lemma skipped_iff (t : TypeDescriptor) :
  skipped t = true <-> t.(td_kind) = "value" \/ t.(td_kind) = "array".
Proof.
  unfold skipped. rewrite orb_true_iff, !String.eqb_eq. reflexivity.
Qed.

Lemma schemaType_skipped (t : TypeDescriptor) :
  skipped t = true -> schemaType t = OK (type_name t, []).
Proof. unfold schemaType, skipped. intros ->. reflexivity. Qed.

Lemma schemaType_object (t : TypeDescriptor) :
  t.(td_kind) = "object" ->
  schemaType t =
  match t.(td_properties) with
  | None => Raise (KeyError "properties")
  | Some props =>
      if forallb prop_ok props then
        OK (type_name t, supertype_schemas t ++ [object_of props])
      else Raise AssertionError
  end.
Proof.
  intros Hk. unfold schemaType, supertype_schemas, object_of, type_name.
  rewrite Hk. simpl.
  destruct (td_properties t) as [props |]; simpl; [| reflexivity].
  rewrite for_props_eq. destruct (forallb prop_ok props); reflexivity.
Qed.

Lemma schemaType_bad_kind (t : TypeDescriptor) :
  t.(td_kind) <> "value" -> t.(td_kind) <> "array" ->
  t.(td_kind) <> "object" ->
  schemaType t = Raise AssertionError.
Proof.
  intros Hv Ha Ho. unfold schemaType.
  apply String.eqb_neq in Hv, Ha, Ho. rewrite Hv, Ha, Ho. reflexivity.
Qed.

(** A type that is not skipped and whose translation returns is of kind
    object, with properties that pass every assertion. *)
Lemma schemaType_OK_inv (t : TypeDescriptor) (title : string)
    (schemas : list pyval) :
  schemaType t = OK (title, schemas) ->
  title = type_name t /\
  ((skipped t = true /\ schemas = []) \/
   (skipped t = false /\ t.(td_kind) = "object" /\
    exists props, t.(td_properties) = Some props /\
      forallb prop_ok props = true /\
      schemas = supertype_schemas t ++ [object_of props])).
Proof.
  intros H. destruct (skipped t) eqn:Es.
  - rewrite schemaType_skipped in H by assumption.
    injection H as <- <-. auto.
  - destruct (String.eqb (td_kind t) "object") eqn:Eo.
    + apply String.eqb_eq in Eo. rewrite schemaType_object in H by assumption.
      destruct (td_properties t) as [props |]; [| discriminate].
      destruct (forallb prop_ok props) eqn:Ep; [| discriminate].
      injection H as <- <-. split; [reflexivity |]. right.
      repeat split; try assumption. exists props; auto.
    + exfalso. unfold schemaType in H. fold (skipped t) in H.
      rewrite Es, Eo in H. discriminate.
Qed.

Lemma type_step_skipped (t : TypeDescriptor) (s : dict pyval) :
  skipped t = true -> type_step s t = OK s.
Proof.
  intros H. unfold type_step. rewrite schemaType_skipped by assumption.
  reflexivity.
Qed.

Lemma type_step_object (t : TypeDescriptor) (s : dict pyval)
    (props : list PropertyDescriptor) :
  t.(td_kind) = "object" -> t.(td_properties) = Some props ->
  forallb prop_ok props = true ->
  type_step s t = OK (dict_set (type_name t) (definition_of t props) s).
Proof.
  intros Hk Hp Hok. unfold type_step.
  rewrite schemaType_object, Hp, Hok by assumption. simpl.
  unfold definition_of, supertype_schemas.
  destruct (ti_supertype (td_type t)) as [s0 |]; [| reflexivity].
  destruct (truthy_str s0); reflexivity.
Qed.

Lemma type_step_OK_inv (t : TypeDescriptor) (s s' : dict pyval) :
  type_step s t = OK s' ->
  (skipped t = true /\ s' = s) \/
  (skipped t = false /\ t.(td_kind) = "object" /\
   exists props, t.(td_properties) = Some props /\
     forallb prop_ok props = true /\
     s' = dict_set (type_name t) (definition_of t props) s).
Proof.
  intros H. destruct (skipped t) eqn:Es.
  - rewrite type_step_skipped in H by assumption. injection H as <-. auto.
  - right. unfold type_step in H. inv_bind H. destruct a as [title schemas].
    apply schemaType_OK_inv in Ha. destruct Ha as [-> [[E _] | (_ & Hk & Hex)]];
      [congruence |].
    destruct Hex as (props & Hp & Hok & ->).
    split; [reflexivity |]. split; [assumption |]. exists props.
    split; [assumption |]. split; [assumption |].
    pose proof (type_step_object t s props Hk Hp Hok) as E.
    unfold type_step in E. rewrite schemaType_object, Hp, Hok in E by assumption.
    simpl in E. simpl in H. rewrite E in H. injection H as <-. reflexivity.
Qed.

Lemma for_types_app (l1 l2 : list TypeDescriptor) (s : dict pyval) :
  for_types (l1 ++ l2) s = (s1 <- for_types l1 s ;; for_types l2 s1).
Proof.
  revert s; induction l1 as [| t r IH]; intros s; simpl; [reflexivity |].
  destruct (type_step s t) as [s1 | e]; simpl; [apply IH | reflexivity].
Qed.

Lemma keys_for_types (types : list TypeDescriptor) (s s' : dict pyval) :
  for_types types s = OK s' ->
  keys s' = insertion_order (defined_names types) (keys s).
Proof.
  revert s; induction types as [| t r IH]; intros s H; simpl in H.
  - injection H as <-. reflexivity.
  - inv_bind H. apply IH in H. rewrite H. unfold defined_names. simpl.
    apply type_step_OK_inv in Ha.
    destruct Ha as [[Es ->] | (Es & _ & props & _ & _ & ->)]; rewrite Es; simpl.
    + reflexivity.
    + rewrite keys_dict_set. reflexivity.
Qed.

Lemma for_types_get_other (types : list TypeDescriptor) (s s' : dict pyval)
    (k : string) :
  for_types types s = OK s' ->
  ~ In k (defined_names types) ->
  dict_get k s' = dict_get k s.
Proof.
  revert s; induction types as [| t r IH]; intros s H Hk; simpl in H.
  - injection H as <-. reflexivity.
  - inv_bind H. unfold defined_names in Hk, IH. simpl in Hk.
    apply type_step_OK_inv in Ha.
    destruct Ha as [[Es ->] | (Es & _ & props & _ & _ & ->)];
      rewrite Es in Hk; simpl in Hk.
    + apply IH; assumption.
    + rewrite (IH _ H) by tauto. apply dict_get_set_neq.
      intros E; apply Hk; left; exact E.
Qed.

Lemma for_types_raises (types : list TypeDescriptor) (s : dict pyval)
    (t : TypeDescriptor) :
  In t types -> raises (schemaType t) -> raises (for_types types s).
Proof.
  revert s; induction types as [| t0 r IH]; intros s Hin Hr; [destruct Hin |].
  simpl. destruct Hin as [-> | Hin].
  - apply raises_bind_l. unfold type_step. apply raises_bind_l. exact Hr.
  - apply raises_bind_r. intros a _. apply IH; assumption.
Qed.

Lemma gen_openapi_OK_inv (d : Document) (v : string) (out : pyval) :
  gen_openapi d v = OK out ->
  exists s, for_types d.(doc_types) [] = OK s /\
    out = openAPISpec v d.(doc_name)
            (d.(doc_version).(major), d.(doc_version).(minor))
            d.(doc_signature) s.
Proof.
  unfold gen_openapi. intros H. inv_bind H. injection H as <-.
  exists a; auto.
Qed.

Lemma openAPISpec_schemas (v title : string) (version : Z * Z)
    (signature : string) (s : dict pyval) :
  py_path ["components"; "schemas"] (openAPISpec v title version signature s)
  = Some (PyDict s).
Proof. reflexivity. Qed.

Lemma openAPISpec_definition (v title : string) (version : Z * Z)
    (signature : string) (s : dict pyval) (n : string) :
  py_path ["components"; "schemas"; n]
    (openAPISpec v title version signature s) = dict_get n s.
Proof. cbn. destruct (dict_get n s); reflexivity. Qed.

(** Every type of a document whose loop returns was translated. *)
Lemma for_types_In_OK (types : list TypeDescriptor) (s s' : dict pyval)
    (t : TypeDescriptor) :
  for_types types s = OK s' -> In t types ->
  exists schemas, schemaType t = OK (type_name t, schemas).
Proof.
  intros H Hin. destruct (schemaType t) as [[title schemas] | e] eqn:E.
  - destruct (schemaType_OK_inv _ _ _ E) as [-> _]. exists schemas; reflexivity.
  - exfalso. apply (raises_not_OK (for_types types s) s'); [| exact H].
    apply (for_types_raises types s t Hin). exists e; exact E.
Qed.

(** The last assignment under a type name is the one that stays. *)
Lemma for_types_get_last (l1 l2 : list TypeDescriptor) (t : TypeDescriptor)
    (s s' : dict pyval) :
  for_types (l1 ++ t :: l2) s = OK s' ->
  t.(td_kind) = "object" ->
  ~ In (type_name t) (defined_names l2) ->
  exists props, t.(td_properties) = Some props /\
    forallb prop_ok props = true /\
    dict_get (type_name t) s' = Some (definition_of t props).
Proof.
  intros H Hk Hn. rewrite for_types_app in H. inv_bind H.
  simpl in H. inv_bind H.
  apply type_step_OK_inv in Ha0.
  destruct Ha0 as [[Es _] | (_ & _ & props & Hp & Hok & ->)].
  - apply skipped_iff in Es. rewrite Hk in Es.
    destruct Es as [Es | Es]; discriminate Es.
  - exists props. split; [assumption |]. split; [assumption |].
    rewrite (for_types_get_other _ _ _ _ H Hn). apply dict_get_set_eq.
Qed.

(** ** Integers in the version string *)

Lemma parse_str_int (n : Z) : parse_int (str_int n) = Some n.
Proof.
  unfold parse_int, str_int.
  rewrite NilZero.isi.
  - simpl. rewrite DecimalZ.of_to. reflexivity.
  - destruct n as [| p | p]; simpl; try discriminate.
    intros E; injection E as E.
    apply (f_equal Pos.of_uint) in E.
    rewrite DecimalPos.Unsigned.of_to in E. discriminate E.
  - destruct n as [| p | p]; simpl; try discriminate.
    intros E; injection E as E.
    apply (f_equal Pos.of_uint) in E.
    rewrite DecimalPos.Unsigned.of_to in E. discriminate E.
Qed.

Example version_3_14 :
  py_path ["info"; "version"] (openAPISpec "3.1.0" "X" (3, 14)%Z "abc" [])
  = Some (PyStr "3.14").
Proof. reflexivity. Qed.

(** ** The worked examples *)

Example gen_openapi_Foo_Bar_Baz :
  gen_openapi (X [Foo; Bar; Baz]) "3.1.0" =
  OK (openAPISpec "3.1.0" "X" (1, 0)%Z "abc"
        [("Foo",
          object_schema "object"
            [("id", PyDict [("type", PyStr "string")]);
             ("tag", PyDict [("type", PyStr "string")])]
            ["tag"]);
         ("Bar",
          PyDict [("allOf",
                   PyList [PyDict [("$ref", PyStr "#/components/schemas/Foo")];
                           object_schema "object" [] []])])]).
Proof. reflexivity. Qed.

(** ** The properties *)

(** The schema [schemaType] appends last holds its properties and its
    required names under the keys of the literal. *)
Lemma object_schema_fields (properties : dict pyval)
    (required : list string) :
  has_object_fields (object_schema "object" properties required)
    properties required.
Proof.
  split; [eexists; split; reflexivity |]. repeat split; reflexivity.
Qed.

(** C4.  [dataType] maps the six built-in names to their schemas,
    ["SchemaSerializable"] to the empty schema, and every other string
    [t], compared exactly (so ["bool"] is not ["Bool"]), to the reference
    ["#/components/schemas/" ++ t]. *)
Theorem dataType_table :
  dataType "Bool" = PyDict [("type", PyStr "boolean")] /\
  dataType "Int" = PyDict [("type", PyStr "integer")] /\
  dataType "Double" =
    PyDict [("type", PyStr "number"); ("format", PyStr "double")] /\
  dataType "String" = PyDict [("type", PyStr "string")] /\
  dataType "Date" =
    PyDict [("type", PyStr "string"); ("format", PyStr "date-time")] /\
  dataType "SchemaSerializable" = PyDict [] /\
  forall t : string,
    t <> "Bool" -> t <> "Int" -> t <> "Double" -> t <> "String" ->
    t <> "Date" -> t <> "SchemaSerializable" ->
    dataType t = PyDict [("$ref", PyStr ("#/components/schemas/" ++ t))].
Proof.
  repeat (split; [reflexivity |]).
  intros t H1 H2 H3 H4 H5 H6. unfold dataType.
  apply String.eqb_neq in H1, H2, H3, H4, H5, H6.
  rewrite H1, H2, H3, H4, H5, H6. reflexivity.
Qed.

Lemma dataType_table_witness :
  dataType "bool" = PyDict [("$ref", PyStr "#/components/schemas/bool")].
Proof.
  apply (proj2 (proj2 (proj2 (proj2 (proj2 (proj2 dataType_table))))) "bool");
    discriminate.
Defined.

(** C6.  The document [gen_openapi] returns carries the caller's
    version string under [openapi], the input's name under
    [info.title], the decimal numerals of [major] and [minor] joined by
    a dot under [info.version] (reading either numeral back gives the
    integer again) and the input's signature under [info.x-signature]. *)
Theorem gen_openapi_info (d : Document) (v : string) (out : pyval) :
  gen_openapi d v = OK out ->
  py_get "openapi" out = Some (PyStr v) /\
  py_path ["info"; "title"] out = Some (PyStr d.(doc_name)) /\
  py_path ["info"; "version"] out =
    Some (PyStr (str_int d.(doc_version).(major) ++ "." ++
                 str_int d.(doc_version).(minor))) /\
  parse_int (str_int d.(doc_version).(major)) = Some d.(doc_version).(major) /\
  parse_int (str_int d.(doc_version).(minor)) = Some d.(doc_version).(minor) /\
  py_path ["info"; "x-signature"] out = Some (PyStr d.(doc_signature)).
Proof.
  intros H. apply gen_openapi_OK_inv in H. destruct H as (s & _ & ->).
  rewrite !parse_str_int. repeat split; reflexivity.
Qed.

Lemma gen_openapi_info_witness :
  py_get "openapi" (openAPISpec "3.1.0" "X" (3, 14)%Z "abc" []) =
    Some (PyStr "3.1.0") /\
  py_path ["info"; "version"] (openAPISpec "3.1.0" "X" (3, 14)%Z "abc" []) =
    Some (PyStr "3.14").
Proof.
  destruct (gen_openapi_info (mkDocument "X" (mkVersion 3 14) "abc" [])
              "3.1.0" (openAPISpec "3.1.0" "X" (3, 14)%Z "abc" []) eq_refl)
    as (H1 & _ & H3 & _).
  split; [exact H1 | exact H3].
Defined.

(** C3.  A type of kind ["value"] or ["array"] translates to its name
    and the empty list, and its iteration of the loop leaves
    [all_schemas] as it was; so when every type bearing its name is of
    such a kind (in particular when names are unique), the returned
    document has no entry under that name. *)
Theorem skipped_kinds_define_nothing (d : Document) (v : string)
    (out : pyval) (t : TypeDescriptor) :
  In t d.(doc_types) ->
  t.(td_kind) = "value" \/ t.(td_kind) = "array" ->
  (forall t', In t' d.(doc_types) -> type_name t' = type_name t ->
              t'.(td_kind) = "value" \/ t'.(td_kind) = "array") ->
  gen_openapi d v = OK out ->
  schemaType t = OK (type_name t, []) /\
  (forall all_schemas, type_step all_schemas t = OK all_schemas) /\
  py_path ["components"; "schemas"; type_name t] out = None.
Proof.
  intros Hin Hk Hall H. apply skipped_iff in Hk.
  split; [apply schemaType_skipped; assumption |].
  split; [intros s; apply type_step_skipped; assumption |].
  apply gen_openapi_OK_inv in H. destruct H as (s & Hs & ->).
  rewrite openAPISpec_definition.
  rewrite (for_types_get_other _ _ _ (type_name t) Hs); [reflexivity |].
  unfold defined_names. rewrite in_map_iff. intros (t' & Hn & Hf).
  apply filter_In in Hf. destruct Hf as [Hin' Hs'].
  apply (Hall t' Hin') in Hn. apply skipped_iff in Hn.
  rewrite Hn in Hs'. discriminate Hs'.
Qed.

Lemma skipped_kinds_define_nothing_witness :
  schemaType Baz = OK ("Baz", []) /\
  py_path ["components"; "schemas"; "Baz"]
    (openAPISpec "3.1.0" "X" (1, 0)%Z "abc"
       [("Foo",
         object_schema "object"
           [("id", PyDict [("type", PyStr "string")]);
            ("tag", PyDict [("type", PyStr "string")])]
           ["tag"])]) = None.
Proof.
  assert (Hall : forall t', In t' (doc_types (X [Foo; Baz])) ->
                   type_name t' = type_name Baz ->
                   td_kind t' = "value" \/ td_kind t' = "array").
  { intros t' [<- | [<- | []]] E; [discriminate E | left; reflexivity]. }
  destruct (skipped_kinds_define_nothing (X [Foo; Baz]) "3.1.0" _ Baz
              (or_intror (or_introl eq_refl)) (or_introl eq_refl) Hall eq_refl)
    as (H1 & _ & H3).
  split; [exact H1 | exact H3].
Defined.



Lemma bad_property_not_ok (p : PropertyDescriptor) :
  bad_property p -> prop_ok p = false.
Proof.
  unfold bad_property, prop_ok.
  intros [[Ht Hw] | [Ht [Hw | Ho]]]; rewrite Ht; simpl.
  - rewrite Hw; reflexivity.
  - rewrite Hw. apply andb_false_r.
  - rewrite Ho. reflexivity.
Qed.

Lemma bad_type_raises (t : TypeDescriptor) :
  bad_type t -> raises (schemaType t).
Proof.
  intros [(Hv & Ha & Ho) | (Hk & props & p & Hp & Hin & Hbad)].
  - exists AssertionError. apply schemaType_bad_kind; assumption.
  - exists AssertionError. rewrite schemaType_object, Hp by assumption.
    destruct (forallb prop_ok props) eqn:E; [| reflexivity].
    pose proof (forallb_prop_ok_In props p E Hin) as G.
    rewrite (bad_property_not_ok p Hbad) in G. discriminate G.
Qed.

(** C8.  A document one of whose types has a kind other than
    ["value"], ["array"] and ["object"], or is of kind ["object"] with
    an ["Array"] property without [wrappedType] or an ["Optional"]
    property without [wrappedType] or with [isOptional] false, makes
    [gen_openapi] raise: no document is returned, whatever the types
    before the bad one, and [main] dumps nothing and exits non-zero. *)
Theorem malformed_input_aborts (d : Document) (v : string)
    (t : TypeDescriptor) :
  In t d.(doc_types) -> bad_type t ->
  (exists e, gen_openapi d v = Raise e) /\
  (forall out, gen_openapi d v <> OK out) /\
  (main d).(dumped) = None /\ (main d).(exit_status) <> 0%Z.
Proof.
  intros Hin Hbad.
  assert (R : forall v', raises (gen_openapi d v')).
  { intros v'. unfold gen_openapi. apply raises_bind_l.
    apply (for_types_raises _ _ t Hin). apply bad_type_raises; exact Hbad. }
  split; [exact (R v) |].
  split; [intros out; apply raises_not_OK; exact (R v) |].
  unfold main. destruct (R "3.1.0") as [e ->]. simpl.
  split; [reflexivity | discriminate].
Qed.

Lemma malformed_input_aborts_witness :
  (exists e, gen_openapi (X [Foo; Quux]) "3.1.0" = Raise e) /\
  dumped (main (X [Foo; Quux])) = None.
Proof.
  assert (Hbad : bad_type Quux).
  { right. split; [reflexivity |].
    exists [mkProp "items" "Array" None false], (mkProp "items" "Array" None false).
    split; [reflexivity |]. split; [left; reflexivity |].
    left. split; reflexivity. }
  destruct (malformed_input_aborts (X [Foo; Quux]) "3.1.0" Quux
              (or_intror (or_introl eq_refl)) Hbad) as (H1 & _ & H3 & _).
  split; [exact H1 | exact H3].
Defined.

(** C7.  The keys of [components.schemas] are the names of the types
    that are not skipped, each where it was first assigned, which is
    the input order when those names are distinct.  The object schema
    [schemaType] emits for an object-kind type holds under
    ['properties'] a dict whose keys are the property names, each where
    it was first assigned (the input order when they are distinct), and
    under ['required'] the names of the ["Optional"] properties in the
    order of the input; and that schema is what the returned document
    holds under the type's name, by itself or as the last element of
    its [allOf], when no later type bears the name. *)
Theorem output_follows_input_order (d : Document) (v : string)
    (out : pyval) :
  gen_openapi d v = OK out ->
  (exists all_schemas,
      py_path ["components"; "schemas"] out = Some (PyDict all_schemas) /\
      keys all_schemas = insertion_order (defined_names d.(doc_types)) [] /\
      (NoDup (defined_names d.(doc_types)) ->
       keys all_schemas = defined_names d.(doc_types))) /\
  (forall t props,
      In t d.(doc_types) -> t.(td_kind) = "object" ->
      t.(td_properties) = Some props ->
      exists obj properties required,
        for_props props ([], []) = OK (properties, required) /\
        schemaType t = OK (type_name t, supertype_schemas t ++ [obj]) /\
        obj = object_schema "object" properties required /\
        py_get "properties" obj = Some (PyDict properties) /\
        py_get "required" obj = Some (PyList (map PyStr required)) /\
        keys properties = insertion_order (map prop_name props) [] /\
        (NoDup (map prop_name props) -> keys properties = map prop_name props) /\
        required = map prop_name (filter is_Optional props)) /\
  (forall before t after props,
      d.(doc_types) = before ++ t :: after -> t.(td_kind) = "object" ->
      t.(td_properties) = Some props ->
      ~ In (type_name t) (defined_names after) ->
      exists entry obj properties,
        py_path ["components"; "schemas"; type_name t] out = Some entry /\
        (entry = obj \/
         exists s, entry = PyDict [("allOf", PyList [reference s; obj])]) /\
        py_get "properties" obj = Some (PyDict properties) /\
        keys properties = insertion_order (map prop_name props) [] /\
        py_get "required" obj =
          Some (PyList (map PyStr (map prop_name (filter is_Optional props))))).
Proof.
  intros H. apply gen_openapi_OK_inv in H. destruct H as (s & Hs & ->).
  split; [| split].
  - exists s. split; [reflexivity |].
    pose proof (keys_for_types _ _ _ Hs) as K. split; [exact K |].
    intros Hnd. rewrite K. apply (insertion_order_NoDup _ []). exact Hnd.
  - intros t props Hin Hk Hp.
    destruct (for_types_In_OK _ _ _ t Hs Hin) as (schemas & E).
    rewrite schemaType_object, Hp in E by assumption.
    destruct (forallb prop_ok props) eqn:Hok; [| discriminate E].
    exists (object_schema "object" (assign_props props []) (Optional_names props)),
      (assign_props props []), (Optional_names props).
    destruct (object_schema_fields (assign_props props []) (Optional_names props))
      as (_ & _ & Fp & _ & Fr).
    split; [rewrite for_props_eq, Hok; reflexivity |].
    split; [rewrite schemaType_object, Hp, Hok by assumption; reflexivity |].
    split; [reflexivity |]. split; [exact Fp |]. split; [exact Fr |].
    pose proof (keys_assign_props props []) as K. split; [exact K |].
    split; [| reflexivity].
    intros Hnd. rewrite K. apply (insertion_order_NoDup _ []). exact Hnd.
  - intros before t after props Hd Hk Hp Hlast. rewrite Hd in Hs.
    destruct (for_types_get_last _ _ _ _ _ Hs Hk Hlast) as (props' & Hp' & Hok & Hg).
    rewrite Hp in Hp'. injection Hp' as <-.
    destruct (object_schema_fields (assign_props props []) (Optional_names props))
      as (_ & _ & Fp & _ & Fr).
    exists (definition_of t props),
      (object_schema "object" (assign_props props []) (Optional_names props)),
      (assign_props props []).
    split; [rewrite openAPISpec_definition; exact Hg |].
    split.
    { unfold definition_of, supertype_schemas, object_of.
      destruct (ti_supertype (td_type t)) as [s0 |]; [| left; reflexivity].
      destruct (truthy_str s0); [right; exists s0 | left]; reflexivity. }
    split; [exact Fp |].
    split; [apply (keys_assign_props props []) | exact Fr].
Qed.

Lemma output_follows_input_order_witness :
  (exists all_schemas,
      py_path ["components"; "schemas"]
        (openAPISpec "3.1.0" "X" (1, 0)%Z "abc"
           [("Foo",
             object_schema "object"
               [("id", PyDict [("type", PyStr "string")]);
                ("tag", PyDict [("type", PyStr "string")])]
               ["tag"]);
            ("Bar",
             PyDict [("allOf",
                      PyList [PyDict [("$ref", PyStr "#/components/schemas/Foo")];
                              object_schema "object" [] []])])])
      = Some (PyDict all_schemas) /\
      keys all_schemas = ["Foo"; "Bar"]) /\
  (exists entry obj properties,
      py_path ["components"; "schemas"; "Foo"]
        (openAPISpec "3.1.0" "X" (1, 0)%Z "abc"
           [("Foo",
             object_schema "object"
               [("id", PyDict [("type", PyStr "string")]);
                ("tag", PyDict [("type", PyStr "string")])]
               ["tag"]);
            ("Bar",
             PyDict [("allOf",
                      PyList [PyDict [("$ref", PyStr "#/components/schemas/Foo")];
                              object_schema "object" [] []])])])
      = Some entry /\
      (entry = obj \/
       exists s, entry = PyDict [("allOf", PyList [reference s; obj])]) /\
      py_get "properties" obj = Some (PyDict properties) /\
      keys properties = ["id"; "tag"] /\
      py_get "required" obj = Some (PyList [PyStr "tag"])).
Proof.
  destruct (output_follows_input_order (X [Foo; Bar; Baz]) "3.1.0" _ eq_refl)
    as ((s & H1 & H2 & _) & _ & H3).
  split; [exists s; split; [exact H1 | exact H2] |].
  assert (Hlast : ~ In (type_name Foo) (defined_names [Bar; Baz])).
  { simpl. intros [E | []]. discriminate E. }
  destruct (H3 [] Foo [Bar; Baz]
              [mkProp "id" "String" None false;
               mkProp "tag" "Optional" (Some "String") true]
              eq_refl eq_refl eq_refl Hlast)
    as (entry & obj & ps & Hg & He & Fp & K & Fr).
  exists entry, obj, ps.
  split; [exact Hg |]. split; [exact He |]. split; [exact Fp |].
  split; [exact K | exact Fr].
Defined.

(** What the assertions leave of [wrappedType]. *)
Lemma truthy_Some (o : option string) :
  truthy o = true -> exists w, o = Some w /\ w <> "".
Proof.
  destruct o as [[| a w] |]; simpl; try discriminate.
  intros _. exists (String a w). split; [reflexivity | discriminate].
Qed.

(** C1, as stated, fails on [Twice]: its first property is
    ["Optional"] with [wrappedType] ["String"] and [isOptional] true,
    yet [properties] maps its name to the schema of ["Int"]. *)
Lemma Optional_property_overwritten :
  schemaType Twice =
    OK ("Twice",
        [object_schema "object" [("a", PyDict [("type", PyStr "integer")])]
           ["a"]]) /\
  dict_get "a" [("a", PyDict [("type", PyStr "integer")])] <>
    Some (dataType "String").
Proof. split; [reflexivity | discriminate]. Qed.

(** C1, amended.  When the translation of an object-kind type returns,
    each of its ["Optional"] properties has [isOptional] true and a
    non-empty [wrappedType] [w], its name is in [required], and, unless
    a later property of the type bears the same name, [properties] maps
    its name to [dataType w] itself. *)
Theorem Optional_property_required (t : TypeDescriptor) (title : string)
    (schemas : list pyval) (before after : list PropertyDescriptor)
    (p : PropertyDescriptor) :
  t.(td_kind) = "object" ->
  t.(td_properties) = Some (before ++ p :: after) ->
  p.(prop_type) = "Optional" ->
  schemaType t = OK (title, schemas) ->
  exists w properties required,
    p.(prop_wrappedType) = Some w /\ p.(prop_isOptional) = true /\
    schemas =
      supertype_schemas t ++ [object_schema "object" properties required] /\
    has_object_fields (object_schema "object" properties required)
      properties required /\
    In p.(prop_name) required /\
    (~ In p.(prop_name) (map prop_name after) ->
     dict_get p.(prop_name) properties = Some (dataType w)).
Proof.
  intros Hk Hp Ht H.
  rewrite schemaType_object, Hp in H by assumption.
  destruct (forallb prop_ok (before ++ p :: after)) eqn:Hok; [| discriminate H].
  injection H as <- <-.
  assert (Hin : In p (before ++ p :: after))
    by (apply in_or_app; right; left; reflexivity).
  pose proof (forallb_prop_ok_In _ p Hok Hin) as Hpok.
  unfold prop_ok in Hpok. rewrite Ht in Hpok. simpl in Hpok.
  apply andb_true_iff in Hpok. destruct Hpok as [Ho Hw].
  apply truthy_Some in Hw. destruct Hw as (w & Hw & _).
  exists w, (assign_props (before ++ p :: after) []),
    (Optional_names (before ++ p :: after)).
  split; [assumption |]. split; [assumption |]. split; [reflexivity |].
  split; [apply object_schema_fields |].
  split.
  - apply In_Optional_names. exists p; auto.
  - intros Hlast. rewrite assign_props_get_last by assumption.
    unfold prop_schema. rewrite Ht, Hw. reflexivity.
Qed.

Lemma Optional_property_required_witness :
  exists w properties required,
    prop_wrappedType (mkProp "tag" "Optional" (Some "String") true) = Some w /\
    schemaType Foo = OK ("Foo", [object_schema "object" properties required]) /\
    In "tag" required /\
    dict_get "tag" properties = Some (dataType w).
Proof.
  destruct (Optional_property_required Foo "Foo" _
              [mkProp "id" "String" None false] []
              (mkProp "tag" "Optional" (Some "String") true)
              eq_refl eq_refl eq_refl eq_refl)
    as (w & ps & req & Hw & _ & Hs & _ & Hr & Hg).
  exists w, ps, req. split; [exact Hw |].
  split.
  { change (schemaType Foo =
            OK ("Foo",
                supertype_schemas Foo ++ [object_schema "object" ps req])).
    rewrite <- Hs. reflexivity. }
  split; [exact Hr |].
  apply Hg. simpl. tauto.
Defined.

(** C5, as stated, fails on [Shadowed]: the schema under the name of
    its ["Array"] property is no array schema, and the name is in
    [required]. *)
Lemma Array_property_overwritten :
  schemaType Shadowed =
    OK ("Shadowed",
        [object_schema "object" [("a", PyDict [("type", PyStr "integer")])]
           ["a"]]) /\
  dict_get "a" [("a", PyDict [("type", PyStr "integer")])] <>
    Some (PyDict [("type", PyStr "array"); ("items", dataType "Int")]) /\
  In "a" ["a"].
Proof.
  split; [reflexivity |]. split; [discriminate | left; reflexivity].
Qed.

(** C5, amended.  When the translation of an object-kind type returns,
    each of its ["Array"] properties has a non-empty [wrappedType] [w];
    its iteration leaves [required_properties] as it was; unless a
    later property of the type bears the same name, [properties] maps
    its name to the array schema with items [dataType w]; and its name
    is not in [required] unless an ["Optional"] property of the type
    bears the same name. *)
Theorem Array_property_schema (t : TypeDescriptor) (title : string)
    (schemas : list pyval) (before after : list PropertyDescriptor)
    (p : PropertyDescriptor) :
  t.(td_kind) = "object" ->
  t.(td_properties) = Some (before ++ p :: after) ->
  p.(prop_type) = "Array" ->
  schemaType t = OK (title, schemas) ->
  exists w properties required,
    p.(prop_wrappedType) = Some w /\
    schemas =
      supertype_schemas t ++ [object_schema "object" properties required] /\
    has_object_fields (object_schema "object" properties required)
      properties required /\
    (forall properties0 required0,
        prop_step (properties0, required0) p =
        OK (dict_set p.(prop_name)
              (PyDict [("type", PyStr "array"); ("items", dataType w)])
              properties0,
            required0)) /\
    (~ In p.(prop_name) (map prop_name after) ->
     dict_get p.(prop_name) properties =
     Some (PyDict [("type", PyStr "array"); ("items", dataType w)])) /\
    ((forall q, In q (before ++ p :: after) ->
                q.(prop_name) = p.(prop_name) -> q.(prop_type) <> "Optional") ->
     ~ In p.(prop_name) required).
Proof.
  intros Hk Hp Ht H.
  rewrite schemaType_object, Hp in H by assumption.
  destruct (forallb prop_ok (before ++ p :: after)) eqn:Hok; [| discriminate H].
  injection H as <- <-.
  assert (Hin : In p (before ++ p :: after))
    by (apply in_or_app; right; left; reflexivity).
  pose proof (forallb_prop_ok_In _ p Hok Hin) as Hpok.
  assert (Hw : truthy (prop_wrappedType p) = true)
    by (unfold prop_ok in Hpok; rewrite Ht in Hpok; exact Hpok).
  destruct (truthy_Some _ Hw) as (w & Ew & _).
  exists w, (assign_props (before ++ p :: after) []),
    (Optional_names (before ++ p :: after)).
  split; [assumption |]. split; [reflexivity |].
  split; [apply object_schema_fields |]. split; [| split].
  - intros ps0 req0. rewrite prop_step_eq, Hpok.
    unfold prop_schema, Optional_names, is_Optional. simpl.
    rewrite Ht, Ew. simpl. rewrite app_nil_r. reflexivity.
  - intros Hlast. rewrite assign_props_get_last by assumption.
    unfold prop_schema. rewrite Ht, Ew. reflexivity.
  - intros Hno Hreq. apply In_Optional_names in Hreq.
    destruct Hreq as (q & Hq & Hqt & Hqn). exact (Hno q Hq Hqn Hqt).
Qed.

Lemma Array_property_schema_witness :
  exists w properties required,
    prop_wrappedType (mkProp "xs" "Array" (Some "Double") false) = Some w /\
    schemaType Plain =
      OK ("Plain", [object_schema "object" properties required]) /\
    dict_get "xs" properties =
      Some (PyDict [("type", PyStr "array"); ("items", dataType w)]) /\
    ~ In "xs" required.
Proof.
  destruct (Array_property_schema Plain "Plain" _ [] []
              (mkProp "xs" "Array" (Some "Double") false)
              eq_refl eq_refl eq_refl eq_refl)
    as (w & ps & req & Hw & Hs & _ & _ & Hg & Hr).
  exists w, ps, req. split; [exact Hw |].
  split.
  { change (schemaType Plain =
            OK ("Plain",
                supertype_schemas Plain ++ [object_schema "object" ps req])).
    rewrite <- Hs. reflexivity. }
  split.
  - apply Hg. simpl. tauto.
  - apply Hr. intros q [<- | []] _. discriminate.
Defined.

(** C2, as stated, fails on [Orphan]: its [supertype] is present, yet
    its entry is the object schema itself and no [allOf] of a reference
    and that schema. *)
Lemma present_supertype_without_allOf :
  ti_supertype (td_type Orphan) = Some "" /\
  gen_openapi (X [Orphan]) "3.1.0" =
    OK (openAPISpec "3.1.0" "X" (1, 0)%Z "abc"
          [("Orphan", object_schema "object" [] [])]) /\
  object_schema "object" [] [] <>
    PyDict [("allOf", PyList [reference ""; object_schema "object" [] []])].
Proof.
  split; [reflexivity |]. split; [reflexivity | discriminate].
Qed.

(** C2, amended.  In the document returned, the entry of an
    object-kind type (the last one of its name) is built from the
    object schema with type ["object"], the properties and required
    names the loop over its properties computed, and
    [additionalProperties] false: with a non-empty [supertype] the
    entry is the [allOf] of the reference to the supertype and that
    schema, in this order; with [supertype] absent or empty it is that
    schema itself. *)
Theorem object_entry (d : Document) (v : string) (out : pyval)
    (before after : list TypeDescriptor) (t : TypeDescriptor) :
  d.(doc_types) = before ++ t :: after ->
  t.(td_kind) = "object" ->
  ~ In (type_name t) (defined_names after) ->
  gen_openapi d v = OK out ->
  exists props properties required,
    t.(td_properties) = Some props /\
    for_props props ([], []) = OK (properties, required) /\
    has_object_fields (object_schema "object" properties required)
      properties required /\
    (forall s, t.(td_type).(ti_supertype) = Some s -> s <> "" ->
       schemaType t =
         OK (type_name t,
             [reference s; object_schema "object" properties required]) /\
       py_path ["components"; "schemas"; type_name t] out =
         Some (PyDict [("allOf",
                        PyList [reference s;
                                object_schema "object" properties required])]))
    /\
    (t.(td_type).(ti_supertype) = None \/
     t.(td_type).(ti_supertype) = Some "" ->
       schemaType t =
         OK (type_name t, [object_schema "object" properties required]) /\
       py_path ["components"; "schemas"; type_name t] out =
         Some (object_schema "object" properties required)).
Proof.
  intros Hd Hk Hlast H.
  apply gen_openapi_OK_inv in H. destruct H as (s0 & Hs & ->).
  rewrite Hd in Hs.
  destruct (for_types_get_last _ _ _ _ _ Hs Hk Hlast) as (props & Hp & Hok & Hg).
  exists props, (assign_props props []), (Optional_names props).
  split; [assumption |].
  split; [rewrite for_props_eq, Hok; reflexivity |].
  split; [apply object_schema_fields |].
  rewrite openAPISpec_definition, Hg.
  rewrite schemaType_object, Hp, Hok by assumption.
  unfold definition_of, supertype_schemas. split.
  - intros s Es Hne. rewrite Es.
    destruct s as [| a s]; [congruence |]. simpl. split; reflexivity.
  - intros [Es | Es]; rewrite Es; simpl; split; reflexivity.
Qed.

Lemma object_entry_witness :
  py_path ["components"; "schemas"; "Bar"]
    (openAPISpec "3.1.0" "X" (1, 0)%Z "abc"
       [("Foo",
         object_schema "object"
           [("id", PyDict [("type", PyStr "string")]);
            ("tag", PyDict [("type", PyStr "string")])]
           ["tag"]);
        ("Bar",
         PyDict [("allOf",
                  PyList [PyDict [("$ref", PyStr "#/components/schemas/Foo")];
                          object_schema "object" [] []])])])
  = Some (PyDict [("allOf",
                   PyList [reference "Foo"; object_schema "object" [] []])]).
Proof.
  assert (Hlast : ~ In (type_name Bar) (defined_names [Baz]))
    by (simpl; tauto).
  destruct (object_entry (X [Foo; Bar; Baz]) "3.1.0" _ [Foo] [Baz] Bar
              eq_refl eq_refl Hlast eq_refl)
    as (props & ps & req & Hp & Hf & _ & Hsup & _).
  injection Hp as <-. injection Hf as <- <-.
  destruct (Hsup "Foo" eq_refl) as [_ Hg]; [discriminate |].
  exact Hg.
Defined.

(** ** When the transformation returns *)

Lemma truthy_iff (o : option string) :
  truthy o = true <-> exists w, o = Some w /\ w <> "".
Proof.
  split; [apply truthy_Some |].
  intros (w & -> & Hw). destruct w; [congruence | reflexivity].
Qed.

Lemma prop_ok_iff (p : PropertyDescriptor) :
  prop_ok p = true <-> well_formed_property p.
Proof.
  unfold prop_ok, well_formed_property.
  destruct (String.eqb (prop_type p) "Array") eqn:EA.
  - apply String.eqb_eq in EA. rewrite truthy_iff, EA. split.
    + intros H. split; [intros _; exact H | discriminate].
    + intros [H _]. apply H; reflexivity.
  - apply String.eqb_neq in EA.
    destruct (String.eqb (prop_type p) "Optional") eqn:EO.
    + apply String.eqb_eq in EO. rewrite andb_true_iff, truthy_iff. split.
      * intros H. split; [intros E; congruence | intros _; exact H].
      * intros [_ H]. apply H; assumption.
    + apply String.eqb_neq in EO. split; [| reflexivity].
      intros _. split; intros E; congruence.
Qed.

Lemma type_ok_iff (t : TypeDescriptor) :
  type_ok t = true <-> well_formed_type t.
Proof.
  unfold type_ok, well_formed_type.
  rewrite orb_true_iff, skipped_iff, andb_true_iff, String.eqb_eq. split.
  - intros [[H | H] | [Hk H]]; [tauto | tauto |].
    right; right. split; [assumption |].
    destruct (td_properties t) as [props |]; [| discriminate].
    exists props. split; [reflexivity |].
    intros p Hp. apply prop_ok_iff. apply (forallb_prop_ok_In props); assumption.
  - intros [H | [H | (Hk & props & Hp & Hall)]]; [tauto | tauto |].
    right. split; [assumption |]. rewrite Hp. apply forallb_forall.
    intros p Hin. apply prop_ok_iff. apply Hall; assumption.
Qed.

Lemma schemaType_type_ok (t : TypeDescriptor) :
  type_ok t = true -> exists schemas, schemaType t = OK (type_name t, schemas).
Proof.
  unfold type_ok. intros H. apply orb_true_iff in H.
  destruct H as [H | H].
  - exists []. apply schemaType_skipped; assumption.
  - apply andb_true_iff in H. destruct H as [Hk H].
    apply String.eqb_eq in Hk. rewrite schemaType_object by assumption.
    destruct (td_properties t) as [props |]; [| discriminate].
    rewrite H. eexists; reflexivity.
Qed.

Lemma schemaType_OK_type_ok (t : TypeDescriptor) (r : string * list pyval) :
  schemaType t = OK r -> type_ok t = true.
Proof.
  destruct r as [title schemas]. intros H.
  apply schemaType_OK_inv in H. unfold type_ok.
  destruct H as [_ [[Es _] | (_ & Hk & props & Hp & Hok & _)]].
  - rewrite Es; reflexivity.
  - rewrite Hk, Hp, Hok. apply orb_true_r.
Qed.

Lemma type_step_type_ok (t : TypeDescriptor) (s : dict pyval) :
  type_ok t = true -> exists s', type_step s t = OK s'.
Proof.
  intros H. destruct (schemaType_type_ok t H) as (schemas & E).
  unfold type_step. rewrite E. simpl.
  destruct schemas as [| x [| y r]]; eexists; reflexivity.
Qed.

Lemma for_types_type_ok (types : list TypeDescriptor) (s : dict pyval) :
  forallb type_ok types = true -> exists s', for_types types s = OK s'.
Proof.
  revert s; induction types as [| t r IH]; intros s H; simpl in *.
  - exists s; reflexivity.
  - apply andb_true_iff in H. destruct H as [Ht Hr].
    destruct (type_step_type_ok t s Ht) as (s1 & ->). simpl.
    apply IH; assumption.
Qed.

Lemma for_types_OK_type_ok (types : list TypeDescriptor) (s s' : dict pyval) :
  for_types types s = OK s' -> forallb type_ok types = true.
Proof.
  intros H. apply forallb_forall. intros t Hin.
  destruct (for_types_In_OK _ _ _ t H Hin) as (schemas & E).
  exact (schemaType_OK_type_ok t _ E).
Qed.

(** The loop stops at the first type whose translation raises. *)
Lemma for_types_first_failure (before after : list TypeDescriptor)
    (t : TypeDescriptor) (s : dict pyval) (e : exn) :
  (forall t', In t' before -> type_ok t' = true) ->
  schemaType t = Raise e ->
  for_types (before ++ t :: after) s = Raise e.
Proof.
  revert s; induction before as [| t0 r IH]; intros s Hok He; simpl.
  - unfold type_step. rewrite He. reflexivity.
  - destruct (type_step_type_ok t0 s (Hok t0 (or_introl eq_refl))) as (s1 & ->).
    simpl. apply IH; [| assumption].
    intros t' Hin. apply Hok. right; assumption.
Qed.

(** X1.  [gen_openapi] returns a document exactly when every type of
    the input is well formed: of kind ["value"] or ["array"], or of
    kind ["object"] with [properties] present, each ["Array"] property
    having a non-empty [wrappedType] and each ["Optional"] property
    having [isOptional] true and a non-empty [wrappedType]. *)
Theorem gen_openapi_returns_iff (d : Document) (v : string) :
  (exists out, gen_openapi d v = OK out) <->
  (forall t, In t d.(doc_types) -> well_formed_type t).
Proof.
  split.
  - intros (out & H) t Hin. apply gen_openapi_OK_inv in H.
    destruct H as (s & Hs & _). apply type_ok_iff.
    apply for_types_OK_type_ok in Hs. rewrite forallb_forall in Hs.
    apply Hs; assumption.
  - intros H.
    assert (Hok : forallb type_ok (doc_types d) = true).
    { apply forallb_forall. intros t Hin. apply type_ok_iff. apply H; exact Hin. }
    destruct (for_types_type_ok _ [] Hok) as (s & Hs).
    unfold gen_openapi. rewrite Hs. simpl. eexists; reflexivity.
Qed.

Lemma gen_openapi_returns_iff_witness :
  exists out, gen_openapi (X [Foo; Baz]) "3.1.0" = OK out.
Proof.
  apply (proj2 (gen_openapi_returns_iff (X [Foo; Baz]) "3.1.0")).
  intros t [<- | [<- | []]].
  - right; right. split; [reflexivity |]. eexists; split; [reflexivity |].
    intros p [<- | [<- | []]]; split; try discriminate.
    intros _. split; [reflexivity |].
    exists "String"; split; [reflexivity | discriminate].
  - left; reflexivity.
Defined.

(** X2.  The run fails fast and in input order: when the types before
    [t] are well formed and the translation of [t] raises [e], then
    [gen_openapi] raises that same [e], whatever comes after [t]. *)
Theorem first_failure_is_raised (d : Document) (v : string)
    (before after : list TypeDescriptor) (t : TypeDescriptor) (e : exn) :
  d.(doc_types) = before ++ t :: after ->
  (forall t', In t' before -> well_formed_type t') ->
  schemaType t = Raise e ->
  gen_openapi d v = Raise e.
Proof.
  intros Hd Hok He. unfold gen_openapi. rewrite Hd.
  rewrite (for_types_first_failure before after t [] e); [reflexivity | | exact He].
  intros t' Hin. apply type_ok_iff. apply Hok; assumption.
Qed.

Lemma first_failure_is_raised_witness :
  gen_openapi (X [Baz; Bare; Quux]) "3.1.0" = Raise (KeyError "properties").
Proof.
  apply (first_failure_is_raised (X [Baz; Bare; Quux]) "3.1.0"
           [Baz] [Quux] Bare (KeyError "properties") eq_refl).
  - intros t' [<- | []]. left; reflexivity.
  - reflexivity.
Defined.

(** X3.  An object-kind type without the [properties] key raises
    [KeyError] on ['properties'], whatever its supertype; as the first
    type that is not well formed it makes [gen_openapi] raise that
    error. *)
Theorem missing_properties_KeyError (d : Document) (v : string)
    (before after : list TypeDescriptor) (t : TypeDescriptor) :
  d.(doc_types) = before ++ t :: after ->
  (forall t', In t' before -> well_formed_type t') ->
  t.(td_kind) = "object" -> t.(td_properties) = None ->
  schemaType t = Raise (KeyError "properties") /\
  gen_openapi d v = Raise (KeyError "properties").
Proof.
  intros Hd Hok Hk Hp.
  assert (E : schemaType t = Raise (KeyError "properties"))
    by (rewrite schemaType_object, Hp by assumption; reflexivity).
  split; [exact E |].
  unfold gen_openapi. rewrite Hd.
  rewrite (for_types_first_failure before after t [] (KeyError "properties"));
    [reflexivity | | exact E].
  intros t' Hin. apply type_ok_iff. apply Hok; assumption.
Qed.

Lemma missing_properties_KeyError_witness :
  schemaType Bare = Raise (KeyError "properties") /\
  gen_openapi (X [Foo; Bare]) "3.1.0" = Raise (KeyError "properties").
Proof.
  apply (missing_properties_KeyError (X [Foo; Bare]) "3.1.0" [Foo] [] Bare
           eq_refl); [| reflexivity | reflexivity].
  intros t' [<- | []]. apply type_ok_iff. reflexivity.
Defined.

(** X4.  A [wrappedType] that is present and empty is rejected like an
    absent one: an object-kind type with an ["Array"] or ["Optional"]
    property whose [wrappedType] is the empty string raises
    [AssertionError], and so does no document containing it return. *)
Theorem empty_wrappedType_rejected (d : Document) (v : string)
    (t : TypeDescriptor) (props : list PropertyDescriptor)
    (p : PropertyDescriptor) :
  In t d.(doc_types) ->
  t.(td_kind) = "object" -> t.(td_properties) = Some props ->
  In p props ->
  p.(prop_type) = "Array" \/ p.(prop_type) = "Optional" ->
  p.(prop_wrappedType) = Some "" ->
  schemaType t = Raise AssertionError /\
  (exists e, gen_openapi d v = Raise e).
Proof.
  intros Hin Hk Hp Hpin Ht Hw.
  assert (Hbad : prop_ok p = false).
  { unfold prop_ok. destruct Ht as [Ht | Ht]; rewrite Ht, Hw; simpl;
      [reflexivity | apply andb_false_r]. }
  assert (E : schemaType t = Raise AssertionError).
  { rewrite schemaType_object, Hp by assumption.
    destruct (forallb prop_ok props) eqn:Hok; [| reflexivity].
    rewrite (forallb_prop_ok_In props p Hok Hpin) in Hbad. discriminate Hbad. }
  split; [exact E |].
  unfold gen_openapi. apply raises_bind_l.
  apply (for_types_raises _ _ t Hin). exists AssertionError; exact E.
Qed.

Lemma empty_wrappedType_rejected_witness :
  schemaType Hollow = Raise AssertionError /\
  (exists e, gen_openapi (X [Foo; Hollow]) "3.1.0" = Raise e).
Proof.
  apply (empty_wrappedType_rejected (X [Foo; Hollow]) "3.1.0" Hollow
           [mkProp "x" "Optional" (Some "") true]
           (mkProp "x" "Optional" (Some "") true)).
  - right; left; reflexivity.
  - reflexivity.
  - reflexivity.
  - left; reflexivity.
  - right; reflexivity.
  - reflexivity.
Defined.

Lemma for_types_without_skipped (types : list TypeDescriptor)
    (s : dict pyval) :
  for_types (filter (fun t => negb (skipped t)) types) s = for_types types s.
Proof.
  revert s; induction types as [| t r IH]; intros s; [reflexivity |].
  simpl. destruct (skipped t) eqn:Es; simpl.
  - rewrite type_step_skipped by assumption. simpl. apply IH.
  - destruct (type_step s t) as [s1 | e]; simpl; [apply IH | reflexivity].
Qed.

(** X5.  Types of kind ["value"] or ["array"] have no effect on the
    run: whatever their supertype and properties, taking them out of
    the document changes neither the document returned nor the
    exception raised. *)
Theorem skipped_types_have_no_effect (d : Document) (v : string) :
  gen_openapi (without_skipped d) v = gen_openapi d v.
Proof.
  unfold gen_openapi, without_skipped. simpl.
  rewrite for_types_without_skipped. reflexivity.
Qed.

(** In a run that returns, the types that are not skipped are the
    object-kind ones. *)
Lemma defined_names_object (types : list TypeDescriptor) (s s' : dict pyval)
    (n : string) :
  for_types types s = OK s' ->
  In n (defined_names types) <->
  exists t, In t types /\ t.(td_kind) = "object" /\ type_name t = n.
Proof.
  intros H. unfold defined_names. rewrite in_map_iff. split.
  - intros (t & Hn & Hf). apply filter_In in Hf. destruct Hf as [Hin Hs].
    exists t. split; [assumption |]. split; [| assumption].
    destruct (for_types_In_OK _ _ _ t H Hin) as (schemas & E).
    apply schemaType_OK_inv in E.
    destruct E as [_ [[Es _] | (_ & Hk & _)]]; [| assumption].
    rewrite Es in Hs. discriminate Hs.
  - intros (t & Hin & Hk & Hn). exists t. split; [assumption |].
    apply filter_In. split; [assumption |].
    unfold skipped. rewrite Hk. reflexivity.
Qed.

(** X6.  In the document returned, [components.schemas] has one key
    per name of an object-kind type and no other key: a name is a key
    exactly when some object-kind type of the input bears it, and no
    key occurs twice. *)
Theorem schemas_keys_are_object_names (d : Document) (v : string)
    (out : pyval) :
  gen_openapi d v = OK out ->
  exists all_schemas,
    py_path ["components"; "schemas"] out = Some (PyDict all_schemas) /\
    NoDup (keys all_schemas) /\
    forall n, In n (keys all_schemas) <->
              exists t, In t d.(doc_types) /\ t.(td_kind) = "object" /\
                        type_name t = n.
Proof.
  intros H. apply gen_openapi_OK_inv in H. destruct H as (s & Hs & ->).
  exists s. split; [reflexivity |].
  rewrite (keys_for_types _ _ _ Hs).
  destruct (insertion_order_spec (defined_names (doc_types d)) [] (NoDup_nil _))
    as [Hnd Hin].
  split; [exact Hnd |].
  intros n. rewrite Hin, (defined_names_object _ _ _ n Hs). simpl. tauto.
Qed.

Lemma schemas_keys_are_object_names_witness :
  exists all_schemas,
    py_path ["components"; "schemas"]
      (openAPISpec "3.1.0" "X" (1, 0)%Z "abc"
         [("Foo",
           object_schema "object"
             [("id", PyDict [("type", PyStr "string")]);
              ("tag", PyDict [("type", PyStr "string")])]
             ["tag"])])
    = Some (PyDict all_schemas) /\
    NoDup (keys all_schemas) /\
    ~ In "Baz" (keys all_schemas).
Proof.
  destruct (schemas_keys_are_object_names (X [Foo; Baz; Foo]) "3.1.0" _ eq_refl)
    as (s & H1 & H2 & H3).
  exists s. split; [exact H1 |]. split; [exact H2 |].
  intros Hin. apply H3 in Hin. destruct Hin as (t & Hin & Hk & Hn).
  destruct Hin as [<- | [<- | [<- | []]]]; discriminate.
Defined.

(** Where an entry of [all_schemas] comes from. *)
Lemma for_types_get_inv (types : list TypeDescriptor) (s s' : dict pyval)
    (n : string) (e : pyval) :
  for_types types s = OK s' ->
  dict_get n s' = Some e ->
  (dict_get n s = Some e /\ ~ In n (defined_names types)) \/
  (exists before t after props,
      types = before ++ t :: after /\ type_name t = n /\
      t.(td_kind) = "object" /\ t.(td_properties) = Some props /\
      forallb prop_ok props = true /\
      ~ In n (defined_names after) /\ e = definition_of t props).
Proof.
  revert s; induction types as [| t r IH]; intros s H Hg; simpl in H.
  - injection H as <-. left. split; [assumption | intros []].
  - inv_bind H. destruct (IH _ H Hg) as [[Hg1 Hn] | Hex].
    + apply type_step_OK_inv in Ha.
      destruct Ha as [[Es ->] | (Es & Hk & props & Hp & Hok & ->)].
      * left. split; [assumption |].
        unfold defined_names in *. simpl. rewrite Es. exact Hn.
      * destruct (string_dec (type_name t) n) as [En | En].
        -- right. exists [], t, r, props.
           rewrite En, dict_get_set_eq in Hg1. injection Hg1 as <-.
           repeat (split; [first [reflexivity | assumption] |]). reflexivity.
        -- left. rewrite dict_get_set_neq in Hg1 by assumption.
           split; [assumption |].
           unfold defined_names in *. simpl. rewrite Es. simpl.
           intros [E | E]; [congruence | exact (Hn E)].
    + right. destruct Hex as (before & t0 & after & props & -> & Hrest).
      exists (t :: before), t0, after, props. split; [reflexivity | exact Hrest].
Qed.

(** X7.  Every entry of [components.schemas] in the document returned
    comes from an object-kind type of that name, the last one in the
    input, and has one of two shapes: the object schema of that type
    when its supertype is absent or empty, or the [allOf] of the
    reference to its non-empty supertype and that object schema. *)
Theorem every_entry_from_last_object_type (d : Document) (v : string)
    (out : pyval) (n : string) (entry : pyval) :
  gen_openapi d v = OK out ->
  py_path ["components"; "schemas"; n] out = Some entry ->
  exists before t after props properties required,
    d.(doc_types) = before ++ t :: after /\
    type_name t = n /\ t.(td_kind) = "object" /\
    (forall t', In t' after -> t'.(td_kind) = "object" -> type_name t' <> n) /\
    t.(td_properties) = Some props /\
    for_props props ([], []) = OK (properties, required) /\
    has_object_fields (object_schema "object" properties required)
      properties required /\
    ((entry = object_schema "object" properties required /\
      (t.(td_type).(ti_supertype) = None \/
       t.(td_type).(ti_supertype) = Some "")) \/
     (exists s, t.(td_type).(ti_supertype) = Some s /\ s <> "" /\
        entry = PyDict [("allOf",
                         PyList [reference s;
                                 object_schema "object" properties required])])).
Proof.
  intros H Hg. apply gen_openapi_OK_inv in H. destruct H as (s0 & Hs & ->).
  rewrite openAPISpec_definition in Hg.
  destruct (for_types_get_inv _ _ _ _ _ Hs Hg) as [[Hg0 _] | Hex];
    [discriminate Hg0 |].
  destruct Hex as (before & t & after & props & Hd & Hn & Hk & Hp & Hok & Hlast & ->).
  exists before, t, after, props, (assign_props props []), (Optional_names props).
  split; [assumption |]. split; [assumption |]. split; [assumption |].
  split.
  { intros t' Hin Hk' En. apply Hlast. unfold defined_names.
    apply in_map_iff. exists t'. split; [assumption |].
    apply filter_In. split; [assumption |].
    unfold skipped. rewrite Hk'. reflexivity. }
  split; [assumption |].
  split; [rewrite for_props_eq, Hok; reflexivity |].
  split; [apply object_schema_fields |].
  unfold definition_of, supertype_schemas, object_of.
  destruct (ti_supertype (td_type t)) as [[| a s] |]; simpl.
  - left; auto.
  - right. exists (String a s). split; [reflexivity |].
    split; [discriminate | reflexivity].
  - left; auto.
Qed.

Lemma every_entry_from_last_object_type_witness :
  exists before t after,
    [Foo; Bar; Baz] = before ++ t :: after /\ type_name t = "Bar".
Proof.
  destruct (every_entry_from_last_object_type (X [Foo; Bar; Baz]) "3.1.0" _
              "Bar" _ eq_refl eq_refl)
    as (before & t & after & _ & _ & _ & Hd & Hn & _).
  exists before, t, after. split; [exact Hd | exact Hn].
Defined.

Example value_type_properties_unread :
  gen_openapi (X [Foo; Odd]) "3.1.0" = gen_openapi (X [Foo]) "3.1.0".
Proof. reflexivity. Qed.

(** ** The object schema *)

(** X8.  In the object schema of a translated type every name of
    [required] is a key of [properties], and the keys of [properties]
    are the property names of the input, each once. *)
Theorem required_names_are_properties (t : TypeDescriptor) (title : string)
    (schemas : list pyval) (props : list PropertyDescriptor) :
  t.(td_kind) = "object" -> t.(td_properties) = Some props ->
  schemaType t = OK (title, schemas) ->
  exists properties required,
    schemas =
      supertype_schemas t ++ [object_schema "object" properties required] /\
    has_object_fields (object_schema "object" properties required)
      properties required /\
    NoDup (keys properties) /\
    (forall k, In k (keys properties) <-> In k (map prop_name props)) /\
    (forall k, In k required ->
               exists schema, dict_get k properties = Some schema).
Proof.
  intros Hk Hp H. rewrite schemaType_object, Hp in H by assumption.
  destruct (forallb prop_ok props) eqn:Hok; [| discriminate H].
  injection H as <- <-.
  exists (assign_props props []), (Optional_names props).
  split; [reflexivity |].
  split; [apply object_schema_fields |].
  rewrite keys_assign_props.
  destruct (insertion_order_spec (map prop_name props) [] (NoDup_nil _))
    as [Hnd Hin].
  split; [exact Hnd |]. split; [intros k; rewrite Hin; simpl; tauto |].
  intros k Hreq.
  destruct (dict_get k (assign_props props [])) as [schema |] eqn:E;
    [exists schema; reflexivity |].
  exfalso. apply dict_get_None_keys in E. apply E.
  rewrite keys_assign_props. apply Hin. right.
  apply In_Optional_names in Hreq. destruct Hreq as (p & Hpin & _ & <-).
  apply in_map; assumption.
Qed.

Lemma required_names_are_properties_witness :
  exists properties required,
    schemaType Foo = OK ("Foo", [object_schema "object" properties required]) /\
    NoDup (keys properties) /\
    (forall k, In k required ->
               exists schema, dict_get k properties = Some schema).
Proof.
  destruct (required_names_are_properties Foo "Foo" _
              [mkProp "id" "String" None false;
               mkProp "tag" "Optional" (Some "String") true]
              eq_refl eq_refl eq_refl)
    as (ps & req & Hs & _ & Hnd & _ & Hr).
  exists ps, req. split; [| split; [exact Hnd | exact Hr]].
  change (schemaType Foo =
          OK ("Foo", supertype_schemas Foo ++ [object_schema "object" ps req])).
  rewrite <- Hs. reflexivity.
Defined.

(** Where an entry of [properties] comes from. *)
Lemma assign_props_get_inv (props : list PropertyDescriptor) (d : dict pyval)
    (k : string) (schema : pyval) :
  dict_get k (assign_props props d) = Some schema ->
  (dict_get k d = Some schema /\ ~ In k (map prop_name props)) \/
  (exists before p after,
      props = before ++ p :: after /\ p.(prop_name) = k /\
      ~ In k (map prop_name after) /\ schema = prop_schema p).
Proof.
  revert d; induction props as [| p r IH]; intros d H.
  - left. split; [exact H | intros []].
  - change (assign_props (p :: r) d)
      with (assign_props r (dict_set (prop_name p) (prop_schema p) d)) in H.
    destruct (IH _ H) as [[Hg Hn] | Hex].
    + destruct (string_dec (prop_name p) k) as [En | En].
      * right. exists [], p, r.
        rewrite En, dict_get_set_eq in Hg. injection Hg as <-.
        repeat (split; [first [reflexivity | assumption] |]). reflexivity.
      * left. rewrite dict_get_set_neq in Hg by assumption.
        split; [assumption |]. simpl. intros [E | E]; [congruence | exact (Hn E)].
    + right. destruct Hex as (before & p0 & after & -> & Hrest).
      exists (p :: before), p0, after. split; [reflexivity | exact Hrest].
Qed.

(** X9.  Every entry of [properties] in the object schema of a
    translated type comes from the last property of that name, and is
    either [dataType] of its type (neither ["Array"] nor ["Optional"]),
    [dataType] of its non-empty [wrappedType] (["Optional"]), or the
    array schema whose items are [dataType] of its non-empty
    [wrappedType] (["Array"]). *)
Theorem every_property_schema_shape (t : TypeDescriptor) (title : string)
    (schemas : list pyval) (props : list PropertyDescriptor) :
  t.(td_kind) = "object" -> t.(td_properties) = Some props ->
  schemaType t = OK (title, schemas) ->
  exists properties required,
    schemas =
      supertype_schemas t ++ [object_schema "object" properties required] /\
    has_object_fields (object_schema "object" properties required)
      properties required /\
    forall k schema,
      dict_get k properties = Some schema ->
      exists before p after,
        props = before ++ p :: after /\ p.(prop_name) = k /\
        ~ In k (map prop_name after) /\
        ((p.(prop_type) = "Array" /\
          exists w, p.(prop_wrappedType) = Some w /\ w <> "" /\
                    schema = array_of (dataType w)) \/
         (p.(prop_type) = "Optional" /\
          exists w, p.(prop_wrappedType) = Some w /\ w <> "" /\
                    schema = dataType w) \/
         (p.(prop_type) <> "Array" /\ p.(prop_type) <> "Optional" /\
          schema = dataType p.(prop_type))).
Proof.
  intros Hk Hp H. rewrite schemaType_object, Hp in H by assumption.
  destruct (forallb prop_ok props) eqn:Hok; [| discriminate H].
  injection H as <- <-.
  exists (assign_props props []), (Optional_names props).
  split; [reflexivity |].
  split; [apply object_schema_fields |].
  intros k schema Hg.
  destruct (assign_props_get_inv _ _ _ _ Hg) as [[Hg0 _] | Hex];
    [discriminate Hg0 |].
  destruct Hex as (before & p & after & Hd & Hn & Hlast & ->).
  exists before, p, after.
  split; [assumption |]. split; [assumption |]. split; [assumption |].
  assert (Hpok : prop_ok p = true).
  { apply (forallb_prop_ok_In props); [assumption |].
    rewrite Hd. apply in_or_app; right; left; reflexivity. }
  apply prop_ok_iff in Hpok. destruct Hpok as [HA HO].
  unfold prop_schema.
  destruct (String.eqb (prop_type p) "Array") eqn:EA.
  - apply String.eqb_eq in EA. left. split; [assumption |].
    destruct (HA EA) as (w & Hw & Hne). exists w. rewrite Hw. auto.
  - apply String.eqb_neq in EA.
    destruct (String.eqb (prop_type p) "Optional") eqn:EO.
    + apply String.eqb_eq in EO. right; left. split; [assumption |].
      destruct (HO EO) as (_ & w & Hw & Hne). exists w. rewrite Hw. auto.
    + apply String.eqb_neq in EO. right; right. auto.
Qed.

Lemma every_property_schema_shape_witness :
  exists properties required,
    schemaType Twice =
      OK ("Twice", [object_schema "object" properties required]) /\
    forall k schema,
      dict_get k properties = Some schema ->
      exists before p after,
        [mkProp "a" "Optional" (Some "String") true;
         mkProp "a" "Int" None false] = before ++ p :: after /\
        prop_name p = k /\ ~ In k (map prop_name after).
Proof.
  destruct (every_property_schema_shape Twice "Twice" _
              [mkProp "a" "Optional" (Some "String") true;
               mkProp "a" "Int" None false]
              eq_refl eq_refl eq_refl)
    as (ps & req & Hs & _ & Hall).
  exists ps, req. split.
  - change (schemaType Twice =
            OK ("Twice",
                supertype_schemas Twice ++ [object_schema "object" ps req])).
    rewrite <- Hs. reflexivity.
  - intros k schema Hg.
    destruct (Hall k schema Hg) as (before & p & after & Hd & Hn & Hlast & _).
    exists before, p, after. auto.
Defined.

(** ** Schemas of property types *)

Ltac split_dataType H :=
  unfold dataType in H;
  repeat match type of H with
         | context [if String.eqb ?t ?l then _ else _] =>
             let E := fresh "E" in
             destruct (String.eqb t l) eqn:E; cbv iota in H;
             [apply String.eqb_eq in E | clear E]
         end.

(** X10.  [dataType] loses nothing: two type names with the same
    schema are the same name.  In particular no declared type name is
    mapped to the schema of a built-in one. *)
Theorem dataType_injective (t1 t2 : string) :
  dataType t1 = dataType t2 -> t1 = t2.
Proof.
  intros H. split_dataType H;
    try discriminate H; try congruence.
  simpl in H. injection H as H. exact H.
Qed.

Lemma dataType_injective_witness :
  "Date" = "Date".
Proof. apply (dataType_injective "Date" "Date"). reflexivity. Defined.

(** ** The version string *)

Lemma has_dot_string_of_uint (u : Decimal.uint) :
  has_dot (NilEmpty.string_of_uint u) = false.
Proof. induction u; simpl; auto. Qed.

Lemma has_dot_str_int (n : Z) : has_dot (str_int n) = false.
Proof.
  unfold str_int, NilZero.string_of_int, NilZero.string_of_uint.
  destruct (Z.to_int n) as [u | u]; destruct u; simpl;
    try reflexivity; apply has_dot_string_of_uint.
Qed.

Lemma str_int_injective (a b : Z) : str_int a = str_int b -> a = b.
Proof.
  intros H. apply (f_equal parse_int) in H.
  rewrite !parse_str_int in H. injection H as H. exact H.
Qed.

Lemma app_dot_injective (s1 s2 r1 r2 : string) :
  has_dot s1 = false -> has_dot s2 = false ->
  (s1 ++ "." ++ r1 = s2 ++ "." ++ r2)%string -> s1 = s2 /\ r1 = r2.
Proof.
  revert s2; induction s1 as [| c1 s1 IH]; intros [| c2 s2] H1 H2 H;
    simpl in *.
  - injection H as H. auto.
  - injection H as Hc _. subst c2. discriminate H2.
  - injection H as Hc _. subst c1. discriminate H1.
  - injection H as Hc H. subst c2.
    apply orb_false_iff in H1, H2.
    destruct (IH s2 (proj2 H1) (proj2 H2) H) as [-> ->]. auto.
Qed.

(** X11.  [info.version] determines the version: two documents
    returned with the same version string come from inputs with the
    same [major] and the same [minor], since a numeral holds no dot. *)
Theorem version_string_unambiguous (d1 d2 : Document) (v1 v2 : string)
    (out1 out2 : pyval) :
  gen_openapi d1 v1 = OK out1 -> gen_openapi d2 v2 = OK out2 ->
  py_path ["info"; "version"] out1 = py_path ["info"; "version"] out2 ->
  d1.(doc_version) = d2.(doc_version).
Proof.
  intros H1 H2 H.
  apply gen_openapi_OK_inv in H1, H2.
  destruct H1 as (s1 & _ & ->), H2 as (s2 & _ & ->).
  cbn in H. injection H as H.
  apply app_dot_injective in H; try apply has_dot_str_int.
  destruct H as [Ha Hb]. apply str_int_injective in Ha, Hb.
  destruct (doc_version d1), (doc_version d2). simpl in *. congruence.
Qed.

Lemma version_string_unambiguous_witness :
  doc_version (X [Foo]) = doc_version (X [Bar; Baz]).
Proof.
  apply (version_string_unambiguous (X [Foo]) (X [Bar; Baz]) "3.1.0" "3.0.3"
           _ _ eq_refl eq_refl).
  reflexivity.
Defined.

(** ** The command *)

Lemma forallb_false_exists {A : Type} (f : A -> bool) (l : list A) :
  forallb f l = false -> exists x, In x l /\ f x = false.
Proof.
  induction l as [| a r IH]; simpl; [discriminate |].
  destruct (f a) eqn:E; simpl.
  - intros H. destruct (IH H) as (x & Hin & Hx). exists x; auto.
  - intros _. exists a; auto.
Qed.

(** X12.  [main] has two outcomes.  On a document all of whose types
    are well formed it dumps the document [gen_openapi] returns for
    the version ["3.1.0"], with that string under [openapi], and exits
    with status 0; on a document with a type that is not well formed
    it dumps nothing and exits with status 1. *)
Theorem main_outcomes (d : Document) :
  ((forall t, In t d.(doc_types) -> well_formed_type t) /\
   exists out,
     gen_openapi d "3.1.0" = OK out /\
     main d = mkOutcome (Some out) 0 /\
     py_get "openapi" out = Some (PyStr "3.1.0")) \/
  ((exists t, In t d.(doc_types) /\ ~ well_formed_type t) /\
   main d = mkOutcome None 1).
Proof.
  destruct (forallb type_ok (doc_types d)) eqn:Hok.
  - left. split.
    + intros t Hin. apply type_ok_iff.
      rewrite forallb_forall in Hok. apply Hok; assumption.
    + destruct (for_types_type_ok _ [] Hok) as (s & Hs).
      unfold main, gen_openapi. rewrite Hs. simpl.
      eexists. split; [reflexivity |]. split; reflexivity.
  - right. destruct (forallb_false_exists _ _ Hok) as (t & Hin & Ht).
    split.
    + exists t. split; [assumption |]. rewrite <- type_ok_iff, Ht. discriminate.
    + destruct (gen_openapi d "3.1.0") as [out | e] eqn:E.
      * exfalso. apply gen_openapi_OK_inv in E. destruct E as (s & Hs & _).
        apply for_types_OK_type_ok in Hs. congruence.
      * unfold main. rewrite E. reflexivity.
Qed.
